(** * ValueSet-Converters: the VSAC converters, the ticket client and the run
    orchestrator, embedded from

    - [src/value_set_vsac_to_json/main.py]
      ([vsac_to_fhir], [vsac_to_vsac], [get_csv], [run]);
    - [src/value_set_vsac_json_to_n3c_json/vsac_api.py]
      ([get_ticket_granting_ticket], [get_service_ticket]).

    Python values are embedded as a small tree type [pyval]; dictionaries are
    association lists in insertion order, because the order of a dictionary's
    keys is observable (rows of the table, keys of the JSON output).  A Python
    call that raises is a function returning [None]; code that mutates shared
    objects ([vsac_to_fhir] on the template) runs over an explicit store. *)

From Stdlib Require Import ZArith Ascii String List Lia.
From stdpp Require Import base option list strings pretty.

Local Open Scope Z_scope.
Local Open Scope stdpp_scope.

(* ===================================================================== *)
(** ** Python values and the built-in operations the sources use *)
(* ===================================================================== *)

Module Py.

(** The values that flow through the converters: [None], integers, strings,
    lists and dictionaries with string keys. *)
#[warnings="-register-all"]
Inductive pyval : Type :=
  | PNone
  | PInt (n : Z)
  | PStr (s : string)
  | PList (items : list pyval)
  | PDict (entries : list (string * pyval)).

(** A dictionary as the interpreter keeps it: keys in insertion order. *)
Definition dict (V : Type) : Type := list (string * V).

(** [k in d] *)
Definition dict_has {V} (d : dict V) (k : string) : bool :=
  existsb (λ e, String.eqb (fst e) k) d.

(** [d[k]]: the value of the first (and only) entry with key [k];
    [None] is [KeyError]. *)
Fixpoint dict_get {V} (d : dict V) (k : string) : option V :=
  match d with
  | [] => None
  | (k', v) :: d' => if String.eqb k' k then Some v else dict_get d' k
  end.

(** [d[k] = v]: an existing key keeps its position, a new key goes last. *)
Fixpoint dict_set {V} (d : dict V) (k : string) (v : V) : dict V :=
  match d with
  | [] => [(k, v)]
  | (k', v') :: d' =>
      if String.eqb k' k then (k', v) :: d' else (k', v') :: dict_set d' k v
  end.

(** [x[k]] with a string key: only a dictionary answers; [None] stands for
    [KeyError] (missing key) and [TypeError] (not a dictionary). *)
Definition getitem (x : pyval) (k : string) : option pyval :=
  match x with
  | PDict d => dict_get d k
  | _ => None
  end.

(** The characters of a string, each as a string of length one. *)
Fixpoint chars (s : string) : list string :=
  match s with
  | EmptyString => []
  | String c s' => String c EmptyString :: chars s'
  end.

(** [x[i]] with a non-negative integer index: lists give the element,
    strings the character; out of range is [IndexError]. *)
Definition index (x : pyval) (i : nat) : option pyval :=
  match x with
  | PList l => l !! i
  | PStr s => PStr <$> chars s !! i
  | _ => None
  end.

(** [for y in x]: the elements a [for] loop visits; [None] is the
    [TypeError] of a value that is not iterable. *)
Definition iterate (x : pyval) : option (list pyval) :=
  match x with
  | PList l => Some l
  | PDict d => Some (map (λ e, PStr (fst e)) d)
  | PStr s => Some (map PStr (chars s))
  | PNone | PInt _ => None
  end.

Definition as_str (x : pyval) : option string :=
  match x with PStr s => Some s | _ => None end.

(** [x == ''] *)
Definition is_empty_str (x : pyval) : bool :=
  match x with PStr EmptyString => true | _ => false end.

(** *** Strings *)

(** [String.prefix p s]: [s] starts with [p]. *)
Definition startswith (s p : string) : bool := String.prefix p s.

(** [s.split(sep)] for a non-empty [sep], left to right over non-overlapping
    occurrences.  [skip] counts the characters of a separator just matched
    that are still to be passed over.  The result is never empty. *)
Fixpoint split_go (sep : string) (skip : nat) (s : string) : list string :=
  match s with
  | EmptyString => [EmptyString]
  | String c s' =>
      match skip with
      | S k => split_go sep k s'
      | O =>
          if startswith s sep
          then EmptyString :: split_go sep (String.length sep - 1) s'
          else match split_go sep O s' with
               | piece :: rest => String c piece :: rest
               | [] => [String c EmptyString]
               end
      end
  end.

(** [s.split(sep)]; the empty separator is a [ValueError]. *)
Definition split (s sep : string) : option (list string) :=
  match sep with
  | EmptyString => None
  | _ => Some (split_go sep O s)
  end.

(** [sep.join(l)] on a list of strings. *)
Fixpoint join (sep : string) (l : list string) : string :=
  match l with
  | [] => EmptyString
  | [x] => x
  | x :: l' => x +:+ sep +:+ join sep l'
  end.

(** [sep.join(l)] on a list of values: a non-string item is a [TypeError]. *)
Definition join_vals (sep : string) (l : list pyval) : option string :=
  join sep <$> mapM as_str l.

(** [s[0:-n]]: all but the last [n] characters. *)
Definition drop_last (n : nat) (s : string) : string :=
  String.substring 0 (String.length s - n) s.

(** [repr(s)] of a string: single quotes unless the text has a single quote
    and no double quote; the quote and the backslash are escaped, [\t], [\n]
    and [\r] are written so, and every other character that is not printable
    is written [\xhh].  A string of the model is a sequence of characters
    with code points 0 to 255, one [ascii] for each; the ones that are not
    printable are the control characters 0 to 31 and 127 to 159, the
    no-break space 160 and the soft hyphen 173. *)
Definition dquote : ascii := ascii_of_nat 34.
Definition squote : ascii := ascii_of_nat 39.
Definition backslash : ascii := ascii_of_nat 92.

Fixpoint contains_char (c : ascii) (s : string) : bool :=
  match s with
  | EmptyString => false
  | String c' s' => Ascii.eqb c' c || contains_char c s'
  end.

Definition hex_digit (n : nat) : ascii :=
  ascii_of_nat (if Nat.ltb n 10 then 48 + n else 87 + n)%nat.

Definition repr_char (q c : ascii) : string :=
  let n := nat_of_ascii c in
  if Ascii.eqb c q || Ascii.eqb c backslash then String backslash (String c EmptyString)
  else if Nat.eqb n 9 then "\t"
  else if Nat.eqb n 10 then "\n"
  else if Nat.eqb n 13 then "\r"
  else if Nat.ltb n 32 || (Nat.leb 127 n && Nat.leb n 160) || Nat.eqb n 173
       then "\x" +:+ String (hex_digit (n / 16)) (String (hex_digit (n mod 16)) EmptyString)
  else String c EmptyString.

Fixpoint repr_body (q : ascii) (s : string) : string :=
  match s with
  | EmptyString => EmptyString
  | String c s' => repr_char q c +:+ repr_body q s'
  end.

Definition repr_str (s : string) : string :=
  let q := if contains_char squote s && negb (contains_char dquote s)
           then dquote else squote in
  String q (repr_body q s +:+ String q EmptyString).

(** [repr(x)] *)
Fixpoint repr (x : pyval) : string :=
  match x with
  | PNone => "None"
  | PInt n => pretty n
  | PStr s => repr_str s
  | PList l => "[" +:+ join ", " (map repr l) +:+ "]"
  | PDict d =>
      "{" +:+ join ", " (map (λ '(k, v), repr_str k +:+ ": " +:+ repr v) d) +:+ "}"
  end.

(** [str(x)], which is also what [format] puts in a [{}] field. *)
Definition str (x : pyval) : string :=
  match x with
  | PStr s => s
  | _ => repr x
  end.

(** White space as [int] and [strip] see it, among the code points 0 to
    255: 9 to 13, 28 to 32, 133 and 160. *)
Definition is_space (c : ascii) : bool :=
  let n := nat_of_ascii c in
  (Nat.leb 9 n && Nat.leb n 13) || (Nat.leb 28 n && Nat.leb n 32)
  || Nat.eqb n 133 || Nat.eqb n 160.

Fixpoint lstrip (s : string) : string :=
  match s with
  | EmptyString => EmptyString
  | String c r => if is_space c then lstrip r else s
  end.

(** [s.strip()] *)
Definition strip (s : string) : string :=
  String.rev (lstrip (String.rev (lstrip s))).

Definition digit_of (c : ascii) : option Z :=
  let n := nat_of_ascii c in
  if Nat.leb 48 n && Nat.leb n 57 then Some (Z.of_nat (n - 48)) else None.

(** Decimal digits, most significant first, with single underscores allowed
    between two digits.  [after_digit] says that the character before was a
    digit. *)
Fixpoint digits_go (acc : Z) (after_digit : bool) (s : string) : option Z :=
  match s with
  | EmptyString => if after_digit then Some acc else None
  | String c s' =>
      if Ascii.eqb c "_"
      then if after_digit then digits_go acc false s' else None
      else d ← digit_of c; digits_go (10 * acc + d) true s'
  end.

Definition digits (s : string) : option Z := digits_go 0 false s.

(** [int(x)]: an integer is itself; a string is read, after the white space
    around it is dropped, as an optional sign and decimal digits, and raises
    [ValueError] otherwise; [None], a list and a dictionary raise
    [TypeError]. *)
Definition int (x : pyval) : option Z :=
  match x with
  | PInt n => Some n
  | PStr s =>
      match strip s with
      | String "-" r => Z.opp <$> digits r
      | String "+" r => digits r
      | r => digits r
      end
  | _ => None
  end.

(** How the replacement fields met so far were numbered: none met, an
    automatic field [{}] met (the next one would take a second argument), or
    a numbered field met. *)
Inductive numbering : Type := Unset | Automatic | Manual.

(** [fmt.format(arg)] with one positional argument.  [{{] and [}}] are
    literal braces; [{}] takes the argument and a second [{}] is an
    [IndexError]; a field of zeros, as [{0}], takes the argument as often as
    it is written; a field with another number is an [IndexError], one with
    a name a [KeyError]; mixing [{}] with numbered fields, a lone brace and
    a field that is not closed are a [ValueError].  [in_field] says that the
    text read is inside the braces of a field.  Attribute and index lookups,
    conversions and format specifications in a field ([.], [[], [!], [:])
    are outside the modelled fragment and give [None] too. *)
Fixpoint format_go (seen : numbering) (in_field : bool) (arg : string)
    (fmt : string) : option string :=
  match fmt with
  | EmptyString => if in_field then None else Some EmptyString
  | String c r =>
      if in_field then
        if Ascii.eqb c "}" then
          match seen with
          | Automatic => None
          | _ => String.append arg <$> format_go Manual false arg r
          end
        else if Ascii.eqb c "0" then format_go seen true arg r
        else None
      else if Ascii.eqb c "{" then
        match r with
        | String "{" r' => String "{" <$> format_go seen false arg r'
        | String "}" r' =>
            match seen with
            | Unset => String.append arg <$> format_go Automatic false arg r'
            | _ => None
            end
        | _ => format_go seen true arg r
        end
      else if Ascii.eqb c "}" then
        match r with
        | String "}" r' => String "}" <$> format_go seen false arg r'
        | _ => None
        end
      else String c <$> format_go seen false arg r
  end.

Definition format (fmt : string) (arg : pyval) : option string :=
  format_go Unset false (str arg) fmt.

(** [sep in s] for a non-empty [sep]: [sep] starts at some position of [s]. *)
Fixpoint occurs (sep s : string) : bool :=
  match s with
  | EmptyString => false
  | String _ s' => startswith s sep || occurs sep s'
  end.

(** The last character of a text. *)
Fixpoint last_char (s : string) : option ascii :=
  match s with
  | EmptyString => None
  | String c EmptyString => Some c
  | String _ s' => last_char s'
  end.

(** No brace in the text: [format] has no field and no escape to act on. *)
Definition brace_free (s : string) : bool :=
  negb (contains_char "{" s) && negb (contains_char "}" s).

End Py.

(* ===================================================================== *)
(** ** The raw value-set record *)
(* ===================================================================== *)

Module Record.
Import Py.

(** One entry of [value_set['ns0:ConceptList']['ns0:Concept']], with the two
    attributes the flattener reads. *)
Record concept : Type := Concept {
  code : string;
  codeSystemName : string;
}.

(** The fields of a described value set that the converters read.  The
    converters themselves take the dictionary; [to_py] is that dictionary for
    a record whose fields are all present and are strings. *)
Record value_set : Type := ValueSet {
  ID : string;
  displayName : string;
  version : string;
  Source : string;
  Type_ : string;
  RevisionDate : string;
  Purpose : string;
  ConceptList : list concept;
}.

(** The codes of the concept entries that name [code_system], in the order
    of the entries. *)
Definition codes_in (code_system : string) (concepts : list concept) : list string :=
  map code (List.filter (λ c, String.eqb (codeSystemName c) code_system) concepts).

Definition concept_to_py (c : concept) : pyval :=
  PDict [("@code", PStr (code c)); ("@codeSystemName", PStr (codeSystemName c))].

Definition to_py (v : value_set) : pyval :=
  PDict [("@ID", PStr (ID v));
         ("@displayName", PStr (displayName v));
         ("@version", PStr (version v));
         ("ns0:Source", PStr (Source v));
         ("ns0:Type", PStr (Type_ v));
         ("ns0:RevisionDate", PStr (RevisionDate v));
         ("ns0:Purpose", PStr (Purpose v));
         ("ns0:ConceptList",
            PDict [("ns0:Concept", PList (map concept_to_py (ConceptList v)))])].

End Record.

(* ===================================================================== *)
(** ** main.py: [vsac_to_vsac] and [get_csv] *)
(* ===================================================================== *)

Module Converters.
Import Py.

(** [purposes[0].split(label)[1]] *)
Definition after_label (clause label : string) : option string :=
  pieces ← split clause label; pieces !! 1%nat.

(** [vsac_to_vsac(v)].  [today] is [datetime.now().strftime('%Y/%m/%d')].
    The entries of the dictionary literal are evaluated in the order they
    are written. *)
Definition vsac_to_vsac (today : string) (v : pyval) : option pyval :=
  purpose ← getitem v "ns0:Purpose" ≫= as_str;
  purposes ← split purpose "),";
  name ← getitem v "@displayName";
  revision ← getitem v "ns0:RevisionDate";
  source ← getitem v "ns0:Source";
  clause0 ← purposes !! 0%nat;
  clinical_focus ← after_label clause0 "(Clinical Focus: ";
  clause0 ← purposes !! 0%nat;
  inclusion ← after_label clause0 "(Inclusion Criteria: ";
  clause0 ← purposes !! 0%nat;
  scope ← after_label clause0 "(Data Element Scope: ";
  clause0 ← purposes !! 0%nat;
  exclusion ← after_label clause0 "(Exclusion Criteria: ";
  Some (PDict [
    ("Concept Set Name", name);
    ("Created At",
       PStr ("vsacToOmopConversion:" +:+ today +:+ "; vsacRevision:" +:+ str revision));
    ("Created By", source);
    ("Intention", PDict [
       ("Clinical Focus", PStr clinical_focus);
       ("Inclusion Criteria", PStr inclusion);
       ("Data Element Scope", PStr scope);
       ("Exclusion Criteria", PStr exclusion)]);
    ("Limitations", PDict [
       ("Exclusion Criteria", PStr EmptyString);
       ("VSAC Note", PNone)]);
    ("Provenance", PDict [
       ("VSAC Steward", PStr EmptyString);
       ("OID", PStr EmptyString);
       ("Code System(s)", PList []);
       ("Definition Type", PStr EmptyString);
       ("Definition Version", PStr EmptyString)])]).

(** The body of the loop over the concepts:
    [if code_system not in code_system_codes: code_system_codes[code_system] = []]
    then [code_system_codes[code_system].append(code)]. *)
Definition add_code (code_system_codes : dict (list string))
    (code_system code : string) : dict (list string) :=
  let d := if dict_has code_system_codes code_system
           then code_system_codes
           else dict_set code_system_codes code_system [] in
  match dict_get d code_system with
  | Some codes => dict_set d code_system (codes ++ [code])
  | None => d
  end.

(** The loop over [value_set['ns0:ConceptList']['ns0:Concept']].  A code or a
    code-system name that is not a string makes a [join] of the row loop
    raise [TypeError]; the model raises where it is read, the call fails
    either way. *)
Fixpoint collect_codes (code_system_codes : dict (list string))
    (concepts : list pyval) : option (dict (list string)) :=
  match concepts with
  | [] => Some code_system_codes
  | concept_dict :: rest =>
      code ← getitem concept_dict "@code" ≫= as_str;
      code_system ← getitem concept_dict "@codeSystemName" ≫= as_str;
      collect_codes (add_code code_system_codes code_system code) rest
  end.

(** The dictionary [code_system_codes] after the loop, for concept entries
    whose code and code system are strings. *)
Definition grouped (concepts : list Record.concept) : dict (list string) :=
  fold_left (λ d c, add_code d (Record.codeSystemName c) (Record.code c))
            concepts [].

(** One [row] of the loop over [code_system_codes.items()].  [now] is what
    [str(datetime.now())] gives when this row is built: the clock is read
    once for each row. *)
Definition make_row (now code_delimiter : string) (value_set name : pyval)
    (purposes : list string) (code_system_codes : dict (list string))
    (item : string * list string) : option pyval :=
  let '(code_system, codes) := item in
  name_str ← as_str name;
  oid ← getitem value_set "@ID";
  limitations ← purposes !! 3%nat;
  steward ← getitem value_set "ns0:Source";
  oid' ← getitem value_set "@ID";
  definition_type ← getitem value_set "ns0:Type";
  definition_version ← getitem value_set "@version";
  Some (PDict [
    ("name", name);
    ("nameVSAC", PStr ("[VSAC] " +:+ name_str));
    ("oid", oid);
    ("codeSystem", PStr code_system);
    ("codes", PStr (join code_delimiter codes));
    ("limitations", PStr limitations);
    ("intention", PStr (str (PList (map PStr (take 2 purposes)))));
    ("provenance", PDict [
       ("VSAC Steward", steward);
       ("OID", oid');
       ("Code System(s)", PStr (join "," (map fst code_system_codes)));
       ("Definition Type", definition_type);
       ("Definition Version", definition_version);
       ("Accessed", PStr (drop_last 7 now))])]).

(** The loop over [code_system_codes.items()].  [clock k] is what
    [str(datetime.now())] gives at the reading number [k] of the call, from
    0: with the fraction of the second, or without it when the fraction is
    zero.  The row number [i] of the loop reads the clock as reading
    [k + i]. *)
Fixpoint make_rows (clock : nat → string) (k : nat) (code_delimiter : string)
    (value_set name : pyval) (purposes : list string)
    (code_system_codes : dict (list string))
    (items : list (string * list string)) : option (list pyval) :=
  match items with
  | [] => Some []
  | item :: rest =>
      row ← make_row (clock k) code_delimiter value_set name purposes
              code_system_codes item;
      rows ← make_rows clock (S k) code_delimiter value_set name purposes
               code_system_codes rest;
      Some (row :: rows)
  end.

(** The body of the loop over [value_sets]: the rows one record adds, when
    [k] rows were built before. *)
Definition rows_of_value_set_at (clock : nat → string) (k : nat)
    (code_delimiter : string) (value_set : pyval) : option (list pyval) :=
  name ← getitem value_set "@displayName";
  purpose ← getitem value_set "ns0:Purpose" ≫= as_str;
  purposes ← split purpose "),";
  concept_list ← getitem value_set "ns0:ConceptList";
  concept_entries ← getitem concept_list "ns0:Concept";
  concepts ← iterate concept_entries;
  code_system_codes ← collect_codes [] concepts;
  make_rows clock k code_delimiter value_set name purposes code_system_codes
    code_system_codes.

(** The [rows] list of [get_csv] after the loop over [value_sets], that is
    the rows of the data frame it writes and returns, when [k] rows were
    built before. *)
Fixpoint get_csv_rows_at (clock : nat → string) (k : nat)
    (code_delimiter : string) (value_sets : list pyval)
    : option (list pyval) :=
  match value_sets with
  | [] => Some []
  | value_set :: rest =>
      rows ← rows_of_value_set_at clock k code_delimiter value_set;
      more ← get_csv_rows_at clock (k + length rows) code_delimiter rest;
      Some (rows ++ more)
  end.

(** The same for a call during which every reading of the clock gives
    [now]. *)
Definition rows_of_value_set (now code_delimiter : string) (value_set : pyval)
    : option (list pyval) :=
  rows_of_value_set_at (λ _, now) 0 code_delimiter value_set.

Definition get_csv_rows (now code_delimiter : string) (value_sets : list pyval)
    : option (list pyval) :=
  get_csv_rows_at (λ _, now) 0 code_delimiter value_sets.

(** The names of a list without repetition, each at its first position. *)
Definition first_seen (names : list string) : list string :=
  fold_left (λ seen x, if existsb (λ y, String.eqb y x) seen then seen
                       else seen ++ [x])
            names [].

(** The row of the table of a record for one code system, said directly:
    the codes are the codes of the concepts of that code system. *)
Definition table_row (accessed code_delimiter : string) (v : Record.value_set)
    (purposes : list string) (limitations : string) (code_system : string)
    : pyval :=
  PDict [
    ("name", PStr (Record.displayName v));
    ("nameVSAC", PStr ("[VSAC] " +:+ Record.displayName v));
    ("oid", PStr (Record.ID v));
    ("codeSystem", PStr code_system);
    ("codes", PStr (join code_delimiter
                      (Record.codes_in code_system (Record.ConceptList v))));
    ("limitations", PStr limitations);
    ("intention", PStr (repr (PList (map PStr (take 2 purposes)))));
    ("provenance", PDict [
       ("VSAC Steward", PStr (Record.Source v));
       ("OID", PStr (Record.ID v));
       ("Code System(s)",
          PStr (join "," (first_seen (map Record.codeSystemName
                                          (Record.ConceptList v)))));
       ("Definition Type", PStr (Record.Type_ v));
       ("Definition Version", PStr (Record.version v));
       ("Accessed", PStr accessed)])].

(** The table of one record said directly: one row per code system in the
    order of first appearance; the row number [i] holds the reading [k + i]
    of the clock without its last seven characters. *)
Definition record_table_at (clock : nat → string) (k : nat)
    (code_delimiter : string) (v : Record.value_set)
    (purposes : list string) (limitations : string) : list pyval :=
  imap (λ i code_system,
          table_row (drop_last 7 (clock (k + i)%nat)) code_delimiter v purposes
            limitations code_system)
       (first_seen (map Record.codeSystemName (Record.ConceptList v))).

(** The same when every reading of the clock gives [now]. *)
Definition record_table (now code_delimiter : string) (v : Record.value_set)
    (purposes : list string) (limitations : string) : list pyval :=
  map (table_row (drop_last 7 now) code_delimiter v purposes limitations)
      (first_seen (map Record.codeSystemName (Record.ConceptList v))).

(** The tables of a list of records one after the other, when [k] rows were
    built before; the limitations of a record are its fourth purpose
    clause. *)
Fixpoint tables_at (clock : nat → string) (k : nat) (code_delimiter : string)
    (vs : list Record.value_set) : list pyval :=
  match vs with
  | [] => []
  | v :: rest =>
      let purposes := split_go ")," 0 (Record.Purpose v) in
      let table :=
        record_table_at clock k code_delimiter v purposes
          (default EmptyString (purposes !! 3%nat)) in
      table ++ tables_at clock (k + length table) code_delimiter rest
  end.

End Converters.

(* ===================================================================== *)
(** ** State and exceptions *)
(* ===================================================================== *)

(** A computation over a state [S] that returns or raises; the state it has
    reached is kept on a raise, as the effects of a Python function are when
    an exception leaves it. *)
Module Eff.

Definition M (S A : Type) : Type := S → option A * S.

Definition ret {S A} (a : A) : M S A := λ s, (Some a, s).

Definition bind {S A B} (m : M S A) (k : A → M S B) : M S B :=
  λ s, match m s with
       | (Some a, s') => k a s'
       | (None, s') => (None, s')
       end.

Definition raise {S A} : M S A := λ s, (None, s).

(** A pure step that may raise. *)
Definition lift {S A} (o : option A) : M S A := λ s, (o, s).

Definition get {S} : M S S := λ s, (Some s, s).
Definition modify {S} (f : S → S) : M S unit := λ s, (Some tt, f s).

(** [for x in l: body(x)], collecting the results. *)
Fixpoint for_each {S A B} (l : list A) (body : A → M S B) : M S (list B) :=
  match l with
  | [] => ret []
  | x :: l' => bind (body x) (λ y, bind (for_each l' body) (λ ys, ret (y :: ys)))
  end.

(** A relation between the state before and after that a computation
    respects from every state. *)
Definition keeps {S A} (P : S → S → Prop) (m : M S A) : Prop :=
  ∀ s, P s (snd (m s)).

Module Notations.
Notation "'let*' x := m 'in' k" := (bind m (λ x, k))
  (at level 10, x pattern, m at level 100, k at level 200,
   format "'[v' 'let*'  x  :=  m  'in' '/' k ']'").
Notation "m ;;; k" := (bind m (λ _, k))
  (at level 100, k at level 200, right associativity).
End Notations.

End Eff.

(* ===================================================================== *)
(** ** main.py: [vsac_to_fhir] over the shared template *)
(* ===================================================================== *)

Module Fhir.
Import Py Eff Eff.Notations.

(** The dictionaries and lists nested in [FHIR_JSON_TEMPLATE] are objects
    with an identity: [copy] copies the outer dictionary only, so the copy
    and the template hold the same nested objects.  [Ref] is a reference to
    such an object in the store; [Imm] is a value no statement of the
    program assigns into (strings, numbers, and whatever is read from the
    input record), kept by value. *)
Definition loc : Type := nat.

Inductive val : Type :=
  | Imm (x : pyval)
  | Ref (l : loc).

Inductive obj : Type :=
  | ODict (entries : dict val)
  | OList (items : list val).

Definition store : Type := list obj.

(** [x[k]] *)
Definition getitem_v (x : val) (k : string) : M store val :=
  match x with
  | Imm p => lift (Imm <$> getitem p k)
  | Ref l =>
      let* h := get in
      match h !! l with
      | Some (ODict e) => lift (dict_get e k)
      | _ => raise
      end
  end.

(** [x[i]] *)
Definition index_v (x : val) (i : nat) : M store val :=
  match x with
  | Imm p => lift (Imm <$> index p i)
  | Ref l =>
      let* h := get in
      match h !! l with
      | Some (OList items) => lift (items !! i)
      | _ => raise
      end
  end.

(** [x[k] = v]: the object [x] refers to is updated in place, for every
    holder of the reference.  Assigning into an [Imm] value is not
    modelled. *)
Definition setitem_v (x : val) (k : string) (v : val) : M store unit :=
  match x with
  | Imm _ => raise
  | Ref l =>
      let* h := get in
      match h !! l with
      | Some (ODict e) => modify (λ h, <[l := ODict (dict_set e k v)]> h)
      | _ => raise
      end
  end.

(** A new object: its reference is the next free location. *)
Definition alloc (o : obj) : M store val :=
  let* h := get in
  modify (λ h, h ++ [o]) ;;; ret (Ref (length h)).

Definition as_str_v (x : val) : M store string :=
  match x with
  | Imm (PStr s) => ret s
  | _ => raise
  end.

(** [value_set[k][0]] *)
Definition first_of (value_set : pyval) (k : string) : option pyval :=
  column ← getitem value_set k; index column 0.

(** [vsac_to_fhir(value_set)], with [template] the entries of
    [FHIR_JSON_TEMPLATE].  [copy(FHIR_JSON_TEMPLATE)] is a new outer
    dictionary [d] with the template's entries, the nested objects shared. *)
Definition vsac_to_fhir (template : dict val) (value_set : pyval)
    : M store (dict val) :=
  let d := template in
  let* id := lift (first_of value_set "valueSet.id" ≫= int) in
  let d := dict_set d "id" (Imm (PInt id)) in
  (* d['text']['div'] = d['text']['div'].format(...description[0]) *)
  let* text := lift (dict_get d "text") in
  let* div := getitem_v text "div" in
  let* div_fmt := as_str_v div in
  let* description := lift (first_of value_set "valueSet.description") in
  let* div' := lift (format div_fmt description) in
  let* text := lift (dict_get d "text") in
  setitem_v text "div" (Imm (PStr div')) ;;;
  (* d['url'] = d['url'].format(str(...id[0])) *)
  let* url := lift (dict_get d "url") in
  let* url_fmt := as_str_v url in
  let* id0 := lift (first_of value_set "valueSet.id") in
  let* url' := lift (format url_fmt (PStr (str id0))) in
  let d := dict_set d "url" (Imm (PStr url')) in
  let* name := lift (first_of value_set "valueSet.name") in
  let d := dict_set d "name" (Imm name) in
  let* title := lift (first_of value_set "valueSet.name") in
  let d := dict_set d "title" (Imm title) in
  let* status := lift (first_of value_set "valueSet.status") in
  let d := dict_set d "status" (Imm status) in
  let* description := lift (first_of value_set "valueSet.description") in
  let d := dict_set d "description" (Imm description) in
  (* d['compose']['include'][0]['system'] = ...codeSystem[0] *)
  let* system := lift (first_of value_set "valueSet.codeSystem") in
  let* compose := lift (dict_get d "compose") in
  let* include := getitem_v compose "include" in
  let* include0 := index_v include 0 in
  setitem_v include0 "system" (Imm system) ;;;
  (* d['compose']['include'][0]['version'] = ...codeSystemVersion[0] *)
  let* version := lift (first_of value_set "valueSet.codeSystemVersion") in
  let* compose := lift (dict_get d "compose") in
  let* include := getitem_v compose "include" in
  let* include0 := index_v include 0 in
  setitem_v include0 "version" (Imm version) ;;;
  (* concepts = []; d['compose']['include'][0]['concept'] = concepts *)
  let* concepts := alloc (OList []) in
  let* compose := lift (dict_get d "compose") in
  let* include := getitem_v compose "include" in
  let* include0 := index_v include 0 in
  setitem_v include0 "concept" concepts ;;;
  ret d.

(** The tree a value stands for in a store, which is what [json.dump]
    writes.  [fuel] bounds the depth of references followed; [None] is a
    dangling reference or a structure deeper than [fuel]. *)
Fixpoint resolve (fuel : nat) (h : store) (v : val) : option pyval :=
  match v with
  | Imm x => Some x
  | Ref l =>
      match fuel with
      | O => None
      | S fuel' =>
          match h !! l with
          | Some (ODict e) =>
              PDict <$> mapM (λ '(k, v'), pair k <$> resolve fuel' h v') e
          | Some (OList items) => PList <$> mapM (resolve fuel' h) items
          | None => None
          end
      end
  end.

(** The tree of an outer dictionary [d] in store [h]. *)
Definition snapshot (h : store) (d : dict val) : option pyval :=
  PDict <$> mapM (λ '(k, v), pair k <$> resolve (S (length h)) h v) d.

(** Modelled from the spec: the constant [FHIR_JSON_TEMPLATE] of
    [definitions/constants.py], which is not among the sources.  The spec
    calls it a static template with fixed slots for identifier, name,
    description, status and first code system and version, and an empty
    concept list; the slots are the ones [vsac_to_fhir] assigns, [div_fmt]
    and [url_fmt] are the two strings it calls [format] on.  The nested
    objects are [d['text']] (location 0), [d['compose']] (1),
    [d['compose']['include']] (2) and [d['compose']['include'][0]] (3). *)
Definition FHIR_JSON_TEMPLATE (url_fmt : string) : dict val :=
  [("resourceType", Imm (PStr "ValueSet"));
   ("id", Imm PNone);
   ("text", Ref 0%nat);
   ("url", Imm (PStr url_fmt));
   ("name", Imm PNone);
   ("title", Imm PNone);
   ("status", Imm PNone);
   ("description", Imm PNone);
   ("compose", Ref 1%nat)].

Definition template_store (div_fmt : string) : store :=
  [ODict [("status", Imm (PStr "generated")); ("div", Imm (PStr div_fmt))];
   ODict [("include", Ref 2%nat)];
   OList [Ref 3%nat];
   ODict [("system", Imm PNone); ("version", Imm PNone); ("concept", Imm (PList []))]].

(** [tree['text']['div']] and [tree['compose']['include'][0]['system']] of a
    written tree. *)
Definition text_div (tree : option pyval) : option pyval :=
  t ← tree; text ← getitem t "text"; getitem text "div".

Definition include0_system (tree : option pyval) : option pyval :=
  t ← tree; compose ← getitem t "compose"; include ← getitem compose "include";
  include0 ← index include 0; getitem include0 "system".

(** What [x[k]] and [x[i]] read in a store [h]. *)
Definition read_item (h : store) (x : val) (k : string) : option val :=
  fst (getitem_v x k h).

Definition read_index (h : store) (x : val) (i : nat) : option val :=
  fst (index_v x i h).

(** What [d['text']['div']] and [d['compose']['include'][0][k]] read in a
    store [h], for an outer dictionary [d]. *)
Definition read_text_div (h : store) (d : dict val) : option val :=
  text ← dict_get d "text"; read_item h text "div".

Definition read_include0 (h : store) (d : dict val) (k : string) : option val :=
  compose ← dict_get d "compose";
  include ← read_item h compose "include";
  include0 ← read_index h include 0;
  read_item h include0 k.

End Fhir.

(* ===================================================================== *)
(** ** vsac_api.py: the ticket client *)
(* ===================================================================== *)

Module VsacApi.
Import Py.

(** What [requests.post] is called with and what it returns. *)
Record request : Type := Request {
  url : string;
  data : dict string;
  headers : dict string;
}.

Record response : Type := Response {
  status_code : Z;
  text : string;
}.

Section Client.
(** [requests.post]: the answer of the remote service to a request;
    [None] when the call itself raises (no connection, time-out). *)
Variable post : request → option response.

(** [config['vsac_api_key']] *)
Variable API_KEY : string.

(** [BeautifulSoup(body, 'html.parser').find('form').attrs['action']]:
    the [action] attribute of the first form of the document; [None] when
    there is no form ([find] returns [None]) or the form has no such
    attribute ([KeyError]). *)
Variable form_action : string → option string.

(** [urllib3.util.parse_url(u).path]: [None] when the URL does not parse,
    [Some None] when it has no path. *)
Variable parse_url_path : string → option (option string).

(** The request [get_ticket_granting_ticket] sends. *)
Definition grant_request : request :=
  {| url := "https://utslogin.nlm.nih.gov/cas/v1/api-key";
     data := [("apikey", API_KEY)];
     headers := [] |}.

(** [get_ticket_granting_ticket()] *)
Definition get_ticket_granting_ticket : option string :=
  response ← post grant_request;
  tgt_url ← form_action (text response);
  path ← parse_url_path tgt_url;
  path ← path;
  pieces ← split path "/";
  last pieces.

(** The request [get_service_ticket] sends for a grant. *)
Definition ticket_request (tgt : string) : request :=
  {| url := "https://utslogin.nlm.nih.gov/cas/v1/tickets/" +:+ tgt;
     data := [("service", "http://umlsks.nlm.nih.gov")];
     headers := [("Content-type", "application/x-www-form-urlencoded")] |}.

(** [get_service_ticket(tgt)] *)
Definition get_service_ticket (tgt : string) : option string :=
  response2 ← post (ticket_request tgt);
  let service_ticket := text response2 in
  Some service_ticket.
End Client.

(** A response with a status in 200..299. *)
Definition is_2xx (r : response) : bool :=
  (200 <=? status_code r) && (status_code r <? 300).

(** The service of the examples: it answers every request with [r]. *)
Definition always (r : response) : request → option response := λ _, Some r.

End VsacApi.

(* ===================================================================== *)
(** ** main.py: [get_csv] and [run] over the files and the collaborators *)
(* ===================================================================== *)

Module Run.
Import Py Eff Eff.Notations.

(** The calls to the collaborators and the file operations of a run, in the
    order they are made. *)
Inductive event : Type :=
  | ReadSheet                                        (* get_sheets_data() *)
  | RequestGrant                                     (* get_ticket_granting_ticket() *)
  | FetchValueSets (object_ids : list pyval) (tgt : pyval)  (* get_value_sets(...) *)
  | LoadCache (path : string)                        (* pickle.load(open(path, 'rb')) *)
  | WriteFile (path : string).                       (* open(path, 'w' or 'wb') and a dump *)

Definition is_network (e : event) : bool :=
  match e with
  | ReadSheet | RequestGrant | FetchValueSets _ _ => true
  | LoadCache _ | WriteFile _ => false
  end.

(** The state a run works on: the regular files (path to contents), the
    directories that exist, the objects of [FHIR_JSON_TEMPLATE], and the
    calls made so far.  A path is the text the program passes: the working
    directory is the empty path, and a directory is reached under one
    spelling.  Permissions are not modelled: a file can be made in every
    directory that exists. *)
Record world : Type := World {
  files : dict string;
  dirs : list string;
  template : Fhir.store;
  log : list event;
}.

(** The imports of [main.py] that are not among the sources, and the
    library calls whose result is data: configuration constants, the
    serialisers, the collaborators (each with the result of its call in this
    run, [None] when it raises) and the clock.  The two dates are what
    [strftime] gives, a text without a separator of paths; [now k] is what
    [str(datetime.now())] gives the time number [k], from 0, that [get_csv]
    asks for it. *)
Record env : Type := Env {
  CACHE_DIR : string;
  OUTPUT_DIR : string;
  FHIR_JSON_TEMPLATE : dict Fhir.val;
  pickle_dumps : pyval → string;
  pickle_loads : string → option pyval;
  json_dumps : option Z → pyval → string;
  to_csv : string → list pyval → string;
  get_sheets_data : option pyval;
  get_ticket_granting_ticket : option pyval;
  get_value_sets : list pyval → pyval → option pyval;
  today_slashes : string;     (* datetime.now().strftime('%Y/%m/%d') *)
  today_dots : string;        (* datetime.now().strftime('%Y.%m.%d') *)
  now : nat → string;         (* str(datetime.now()), reading by reading *)
}.

(** [os.path.join(a, b)]: [b] alone when it is absolute, and no separator
    is added after an empty [a] or one that ends with the separator.
    [Path(a, b)] names the same file. *)
Definition path_join (a b : string) : string :=
  if startswith b "/" then b
  else match last_char a with
       | None => b
       | Some c => if Ascii.eqb c "/" then a +:+ b else a +:+ "/" +:+ b
       end.

(** The text before the last separator of a path, empty when the path has
    none, and the text after it. *)
Fixpoint dirname (path : string) : string :=
  match path with
  | EmptyString => EmptyString
  | String c rest =>
      if contains_char "/" rest then String c (dirname rest) else EmptyString
  end.

Fixpoint basename (path : string) : string :=
  match path with
  | EmptyString => EmptyString
  | String c rest =>
      if contains_char "/" rest then basename rest
      else if Ascii.eqb c "/" then rest else path
  end.

Definition log_event (e : event) (w : world) : world :=
  {| files := files w; dirs := dirs w; template := template w;
     log := log w ++ [e] |}.

Definition set_file (path contents : string) (w : world) : world :=
  {| files := dict_set (files w) path contents; dirs := dirs w;
     template := template w; log := log w |}.

(** The calls to the collaborators made so far. *)
Definition network_calls (w : world) : list event :=
  List.filter is_network (log w).

(** No call to a collaborator between two states. *)
Definition quiet (w w' : world) : Prop := network_calls w' = network_calls w.

Definition emit (e : event) : M world unit := modify (log_event e).

(** The directory a path lies in is there: the working directory (or the
    root) or one of [dirs]. *)
Definition parent_exists (w : world) (path : string) : bool :=
  bool_decide (dirname path = EmptyString)
  || bool_decide (dirname path ∈ dirs w).

(** [open(path, 'w')] and [open(path, 'wb')] return: the path names
    something, in a directory that is there (not under a missing directory
    and not under a regular file), and is not itself a directory. *)
Definition can_open (w : world) (path : string) : bool :=
  negb (bool_decide (basename path = EmptyString))
  && parent_exists w path
  && negb (bool_decide (path ∈ dirs w)).

(** [open(path, 'w')] followed by a dump of [contents], as also [to_csv]
    does; it raises, and writes nothing, when the file cannot be opened. *)
Definition write_file (path contents : string) : M world unit :=
  let* w := get in
  if can_open w path
  then emit (WriteFile path) ;;; modify (set_file path contents)
  else raise.

Definition is_file (path : string) : M world bool :=
  let* w := get in ret (dict_has (files w) path).

Definition path_exists (path : string) : M world bool :=
  let* w := get in
  ret (dict_has (files w) path || bool_decide (path ∈ dirs w)).

Definition add_dir (path : string) (w : world) : world :=
  {| files := files w; dirs := dirs w ++ [path];
     template := template w; log := log w |}.

(** [os.mkdir(path)]: raises when something is there under the path, or
    when the directory it is to lie in is missing. *)
Definition mkdir (path : string) : M world unit :=
  let* w := get in
  if dict_has (files w) path || bool_decide (path ∈ dirs w)
     || negb (parent_exists w path)
  then raise
  else modify (add_dir path).

(** Run a step of [vsac_to_fhir] on the template objects of the world. *)
Definition on_template {A} (m : M Fhir.store A) : M world A :=
  λ w, let '(r, h) := m (template w) in
       (r, {| files := files w; dirs := dirs w; template := h; log := log w |}).

(** What [d_list] holds: the result of [vsac_to_fhir], whose nested objects
    live in the store, or a plain value (the result of [vsac_to_vsac], or
    the initial [{}]). *)
Inductive artifact : Type :=
  | OfTemplate (d : dict Fhir.val)
  | Plain (x : pyval).

Section WithEnv.
Variable E : env.

(** [get_csv(value_sets, field_delimiter, code_delimiter)]: the rows, then
    the table file in the directory of the day, made if nothing is there
    under its path. *)
Definition get_csv (value_sets : pyval) (field_delimiter code_delimiter : string)
    : M world (list pyval) :=
  let* records := lift (iterate value_sets) in
  let* rows :=
    lift (Converters.get_csv_rows_at (now E) 0 code_delimiter records) in
  let outdir := path_join (OUTPUT_DIR E) (today_dots E) in
  let* present := path_exists outdir in
  (if present then ret tt else mkdir outdir) ;;;
  let outpath := path_join outdir "list_of_codes.tsv" in
  write_file outpath (to_csv E field_delimiter rows) ;;;
  ret rows.

Definition pickle_file : string := path_join (CACHE_DIR E) "value_sets.pickle".

(** [pickle.load(open(pickle_file, 'rb'))] *)
Definition load_cache : M world pyval :=
  emit (LoadCache pickle_file) ;;;
  let* w := get in
  let* bytes := lift (dict_get (files w) pickle_file) in
  lift (pickle_loads E bytes).

(** Lines 154 to 168 of [run]: the fetch and the write of the cache. *)
Definition fetch : M world pyval :=
  emit ReadSheet ;;;
  let* df := lift (get_sheets_data E) in
  let* column := lift (getitem df "OID" ≫= iterate) in
  let object_ids := List.filter (λ x, negb (is_empty_str x)) column in
  emit RequestGrant ;;;
  let* tgt := lift (get_ticket_granting_ticket E) in
  emit (FetchValueSets object_ids tgt) ;;;
  let* value_sets_dict := lift (get_value_sets E object_ids tgt) in
  let* response :=
    lift (getitem value_sets_dict "ns0:RetrieveMultipleValueSetsResponse") in
  let* value_sets := lift (getitem response "ns0:DescribedValueSet") in
  write_file pickle_file (pickle_dumps E value_sets) ;;;
  ret value_sets.

(** Lines 145 to 168 of [run]: [value_sets] from the cache or from the
    service. *)
Definition run_fetch (use_cache : bool) : M world pyval :=
  let value_sets := PList [] in
  let* locals :=
    if use_cache then
      let* cached := is_file pickle_file in
      if cached && use_cache
      then let* loaded := load_cache in ret (loaded, use_cache)
      else ret (value_sets, false)
    else ret (value_sets, use_cache) in
  let '(value_sets, use_cache) := locals in
  if negb use_cache then fetch else ret value_sets.

(** The body of the loop that fills [d_list]. *)
Definition convert (format : string) (value_set : pyval) : M world artifact :=
  let value_set2 := Plain (PDict []) in
  if String.eqb format "fhir" then
    let* d := on_template (Fhir.vsac_to_fhir (FHIR_JSON_TEMPLATE E) value_set) in
    ret (OfTemplate d)
  else if String.eqb format "omop" then
    let* d := lift (Converters.vsac_to_vsac (today_slashes E) value_set) in
    ret (Plain d)
  else ret value_set2.

(** [d['name']] for an element of [d_list], as a string ready for
    [+ '.json']. *)
Definition artifact_name (d : artifact) : option string :=
  match d with
  | OfTemplate d =>
      match dict_get d "name" with
      | Some (Fhir.Imm (PStr s)) => Some s
      | _ => None
      end
  | Plain x => getitem x "name" ≫= as_str
  end.

(** The tree [json.dump] writes for an element of [d_list], read when the
    file is written. *)
Definition artifact_tree (d : artifact) : M world pyval :=
  match d with
  | OfTemplate d => let* w := get in lift (Fhir.snapshot (template w) d)
  | Plain x => ret x
  end.

(** The body of the loop that saves the files. *)
Definition save (json_indent : Z) (d : artifact) : M world unit :=
  let* valueset_name := lift (artifact_name d) in
  let* tree := artifact_tree d in
  write_file (valueset_name +:+ ".json")
    (if bool_decide (json_indent ≠ 0)
     then json_dumps E (Some json_indent) tree
     else json_dumps E None tree).

(** Lines 170 to 192 of [run]: the artefact for [value_sets]. *)
Definition run_emit (artefact format field_delimiter code_delimiter : string)
    (json_indent : Z) (value_sets : pyval) : M world unit :=
  if String.eqb artefact "tsv_code" then
    get_csv value_sets field_delimiter code_delimiter ;;; ret tt
  else if String.eqb artefact "json" then
    let* records := lift (iterate value_sets) in
    let* d_list := for_each records (convert format) in
    for_each d_list (save json_indent) ;;; ret tt
  else ret tt.

(** [run(artefact, format, field_delimiter, code_delimiter, json_indent,
    use_cache)] *)
Definition run (artefact format field_delimiter code_delimiter : string)
    (json_indent : Z) (use_cache : bool) : M world unit :=
  let* value_sets := run_fetch use_cache in
  run_emit artefact format field_delimiter code_delimiter json_indent value_sets.
End WithEnv.

(** The cache file holds in [w'] what it holds in [w]. *)
Definition cache_kept (E : env) (w w' : world) : Prop :=
  dict_get (files w') (pickle_file E) = dict_get (files w) (pickle_file E).

(** Only the log of calls differs between [w] and [w']. *)
Definition only_logged (w w' : world) : Prop :=
  files w' = files w ∧ dirs w' = dirs w ∧ template w' = template w.

End Run.

(* ===================================================================== *)
(** ** Concrete records used below *)
(* ===================================================================== *)

Module Examples.
Import Py Record.

(** The record of the end-to-end example: four labelled clauses, two
    concepts under one code system. *)
Definition asthma_sct : value_set :=
  {| ID := "2.16.840.1.113762.1.4.1047.20";
     displayName := "Asthma SCT";
     version := "20210220";
     Source := "NHLBI";
     Type_ := "Extensional";
     RevisionDate := "2021-02-20";
     Purpose := "(Clinical Focus: asthma),(Inclusion Criteria: snomed),(Data Element Scope: condition),(Exclusion Criteria: none)";
     ConceptList := [Concept "123" "SNOMEDCT"; Concept "456" "SNOMEDCT"] |}.

(** The same record with concepts of two code systems, interleaved. *)
Definition asthma_mixed : value_set :=
  {| ID := ID asthma_sct;
     displayName := "Asthma";
     version := version asthma_sct;
     Source := Source asthma_sct;
     Type_ := "Grouping";
     RevisionDate := RevisionDate asthma_sct;
     Purpose := Purpose asthma_sct;
     ConceptList := [Concept "123" "SNOMEDCT"; Concept "J45" "ICD10CM";
                     Concept "456" "SNOMEDCT"] |}.

(** A record whose purpose text has a single clause. *)
Definition one_clause : value_set :=
  {| ID := ID asthma_sct;
     displayName := "Asthma SCT";
     version := version asthma_sct;
     Source := Source asthma_sct;
     Type_ := Type_ asthma_sct;
     RevisionDate := RevisionDate asthma_sct;
     Purpose := "(Clinical Focus: asthma)";
     ConceptList := [Concept "123" "SNOMEDCT"] |}.

(** A record without concepts. *)
Definition no_concepts : value_set :=
  {| ID := ID asthma_sct;
     displayName := "Empty";
     version := version asthma_sct;
     Source := Source asthma_sct;
     Type_ := Type_ asthma_sct;
     RevisionDate := RevisionDate asthma_sct;
     Purpose := "(Clinical Focus: nothing yet)";
     ConceptList := [] |}.

(** A purpose text that keeps all four labels in its first clause, the only
    shape [vsac_to_vsac] accepts. *)
Definition labels_in_first_clause : value_set :=
  {| ID := ID asthma_sct;
     displayName := "Asthma SCT";
     version := version asthma_sct;
     Source := Source asthma_sct;
     Type_ := Type_ asthma_sct;
     RevisionDate := RevisionDate asthma_sct;
     Purpose := "(Clinical Focus: asthma (Inclusion Criteria: snomed (Data Element Scope: condition (Exclusion Criteria: none)";
     ConceptList := ConceptList asthma_sct |}.

(** Two records in the shape [vsac_to_fhir] reads. *)
Definition fhir_record (id : Z) (name description status system version : string)
    : pyval :=
  PDict [("valueSet.id", PList [PInt id]);
         ("valueSet.name", PList [PStr name]);
         ("valueSet.description", PList [PStr description]);
         ("valueSet.status", PList [PStr status]);
         ("valueSet.codeSystem", PList [PStr system]);
         ("valueSet.codeSystemVersion", PList [PStr version])].

Definition record_a : pyval :=
  fhir_record 1 "Asthma" "asthma conditions" "active" "SNOMEDCT" "2021-03".

Definition record_b : pyval :=
  fhir_record 2 "Cough" "cough findings" "draft" "ICD10CM" "2020".

Definition url_fmt : string := "http://example.org/fhir/ValueSet/{}".
Definition div_fmt : string := "<div>{}</div>".

(** A run: the sheet lists two identifiers and a blank, the service answers
    with two records.  The serialisers of the example write [repr]; the
    example [pickle_loads] reads back the one list the example dumps. *)
Definition fetched : pyval := PList [to_py asthma_sct; to_py asthma_mixed].

(** A clock: its third reading falls on a whole second, which
    [str(datetime.now())] prints without a fraction. *)
Definition clock (k : nat) : string :=
  default "2021-03-04 10:11:13.000127"
    (["2021-03-04 10:11:12.999871"; "2021-03-04 10:11:12.999993";
      "2021-03-04 10:11:13"] !! k).

Definition env : Run.env :=
  {| Run.CACHE_DIR := "cache";
     Run.OUTPUT_DIR := "output";
     Run.FHIR_JSON_TEMPLATE := Fhir.FHIR_JSON_TEMPLATE url_fmt;
     Run.pickle_dumps := repr;
     Run.pickle_loads := λ s, if String.eqb s (repr fetched) then Some fetched else None;
     Run.json_dumps := λ _ tree, repr tree;
     Run.to_csv := λ sep rows, join sep (map repr rows);
     Run.get_sheets_data :=
       Some (PDict [("OID", PList [PStr (ID asthma_sct); PStr EmptyString;
                                    PStr "2.16.840.1.113762.1.4.1047.21"])]);
     Run.get_ticket_granting_ticket := Some (PStr "TGT-42-cas");
     Run.get_value_sets := λ _ _,
       Some (PDict [("ns0:RetrieveMultipleValueSetsResponse",
                     PDict [("ns0:DescribedValueSet", fetched)])]);
     Run.today_slashes := "2021/03/04";
     Run.today_dots := "2021.03.04";
     Run.now := clock |}.

(** No cache file yet. *)
Definition cold : Run.world :=
  {| Run.files := [];
     Run.dirs := ["cache"; "output"];
     Run.template := Fhir.template_store div_fmt;
     Run.log := [] |}.

(** The cache file of an earlier run is there. *)
Definition warm : Run.world :=
  {| Run.files := [("cache/value_sets.pickle", repr fetched)];
     Run.dirs := ["cache"; "output"];
     Run.template := Fhir.template_store div_fmt;
     Run.log := [] |}.

(** Neither the cache directory nor the output directory is there. *)
Definition bare : Run.world :=
  {| Run.files := [];
     Run.dirs := [];
     Run.template := Fhir.template_store div_fmt;
     Run.log := [] |}.

(** The same run when the grant request fails. *)
Definition env_no_grant : Run.env :=
  {| Run.CACHE_DIR := Run.CACHE_DIR env;
     Run.OUTPUT_DIR := Run.OUTPUT_DIR env;
     Run.FHIR_JSON_TEMPLATE := Run.FHIR_JSON_TEMPLATE env;
     Run.pickle_dumps := Run.pickle_dumps env;
     Run.pickle_loads := Run.pickle_loads env;
     Run.json_dumps := Run.json_dumps env;
     Run.to_csv := Run.to_csv env;
     Run.get_sheets_data := Run.get_sheets_data env;
     Run.get_ticket_granting_ticket := None;
     Run.get_value_sets := Run.get_value_sets env;
     Run.today_slashes := Run.today_slashes env;
     Run.today_dots := Run.today_dots env;
     Run.now := Run.now env |}.

End Examples.

(* ===================================================================== *)
(** * Properties *)
(* ===================================================================== *)

Import Py Record Converters.

(** ** [vsac_to_vsac] *)

Lemma dict_get_cons {V} (k k' : string) (v : V) (d : dict V) :
  dict_get ((k', v) :: d) k = if String.eqb k' k then Some v else dict_get d k.
Proof. reflexivity. Qed.

(** A successful call took every sub-field of [Intention] from the first
    clause of the purpose text. *)
Lemma vsac_to_vsac_intention (today : string) (v d : pyval) :
  vsac_to_vsac today v = Some d →
  ∃ purpose clause0 rest cf ic des ec,
    getitem v "ns0:Purpose" = Some (PStr purpose) ∧
    split purpose ")," = Some (clause0 :: rest) ∧
    after_label clause0 "(Clinical Focus: " = Some cf ∧
    after_label clause0 "(Inclusion Criteria: " = Some ic ∧
    after_label clause0 "(Data Element Scope: " = Some des ∧
    after_label clause0 "(Exclusion Criteria: " = Some ec ∧
    getitem d "Intention" =
      Some (PDict [("Clinical Focus", PStr cf); ("Inclusion Criteria", PStr ic);
                   ("Data Element Scope", PStr des); ("Exclusion Criteria", PStr ec)]).
Proof.
  unfold vsac_to_vsac. intros H.
  destruct (getitem v "ns0:Purpose") as [[| |purpose| |]|] eqn:Hp;
    simpl in H; try discriminate.
  destruct (split_go ")," 0 purpose) as [|clause0 rest] eqn:Hs.
  { repeat match type of H with
           | context [mbind _ ?o] => destruct o; simpl in H; try discriminate
           end. }
  simpl in H.
  repeat match type of H with
         | context [mbind _ ?o] =>
             let x := fresh "x" in
             let Hx := fresh "Hx" in
             destruct o as [x|] eqn:Hx; simpl in H; [|discriminate]
         end.
  injection H as <-.
  exists purpose, clause0, rest. unfold split. rewrite Hs.
  do 4 eexists. repeat split; eassumption || reflexivity.
Qed.

(** C1, at the record of the end-to-end example: with the four labelled
    clauses in order, separated by [),], the first clause holds the
    Clinical Focus label only, and [vsac_to_vsac], which looks for every
    label in [purposes[0]], raises instead of returning the four texts. *)
Theorem vsac_to_vsac_four_clauses_raises :
  ∀ today : string,
    split (Purpose Examples.asthma_sct) ")," =
      Some ["(Clinical Focus: asthma"; "(Inclusion Criteria: snomed";
            "(Data Element Scope: condition"; "(Exclusion Criteria: none)"] ∧
    vsac_to_vsac today (to_py Examples.asthma_sct) = None.
Proof. intros today. split; reflexivity. Qed.

(** C10: whatever the record, the [Limitations] and [Provenance] parts of
    the result of [vsac_to_vsac] are the same constants. *)
Theorem vsac_to_vsac_constant_parts (today : string) (v d : pyval) :
  vsac_to_vsac today v = Some d →
  getitem d "Limitations" =
    Some (PDict [("Exclusion Criteria", PStr EmptyString); ("VSAC Note", PNone)]) ∧
  getitem d "Provenance" =
    Some (PDict [("VSAC Steward", PStr EmptyString);
                 ("OID", PStr EmptyString);
                 ("Code System(s)", PList []);
                 ("Definition Type", PStr EmptyString);
                 ("Definition Version", PStr EmptyString)]).
Proof.
  unfold vsac_to_vsac. intros H.
  repeat match type of H with
         | context [mbind _ ?o] =>
             let x := fresh "x" in
             destruct o as [x|]; simpl in H; [|discriminate]
         end.
  injection H as <-. split; reflexivity.
Qed.

Lemma vsac_to_vsac_constant_parts_witness :
  ∃ d, vsac_to_vsac "2021/03/04" (to_py Examples.labels_in_first_clause) = Some d ∧
       getitem d "Limitations" =
         Some (PDict [("Exclusion Criteria", PStr EmptyString); ("VSAC Note", PNone)]) ∧
       getitem d "Provenance" =
         Some (PDict [("VSAC Steward", PStr EmptyString);
                      ("OID", PStr EmptyString);
                      ("Code System(s)", PList []);
                      ("Definition Type", PStr EmptyString);
                      ("Definition Version", PStr EmptyString)]).
Proof.
  eexists. split; [reflexivity|].
  apply (vsac_to_vsac_constant_parts "2021/03/04"
           (to_py Examples.labels_in_first_clause)).
  reflexivity.
Defined.

(** ** Dictionaries *)

Section DictFacts.
Context {V : Type}.
Implicit Types (d : dict V) (k : string) (v : V).

Lemma dict_has_keys d k : dict_has d k = true ↔ k ∈ map fst d.
Proof.
  unfold dict_has. induction d as [|[k' v'] d IH]; simpl.
  - split; [discriminate | intros H; inversion H].
  - rewrite orb_true_iff, IH, elem_of_cons, String.eqb_eq. intuition congruence.
Qed.

Lemma dict_has_false d k : dict_has d k = false ↔ k ∉ map fst d.
Proof.
  rewrite <- dict_has_keys. destruct (dict_has d k); intuition congruence.
Qed.

Lemma dict_get_absent d k : dict_has d k = false → dict_get d k = None.
Proof.
  unfold dict_has. induction d as [|[k' v'] d IH]; simpl; [done|].
  destruct (String.eqb k' k); simpl; [discriminate | exact IH].
Qed.

Lemma dict_get_present d k : dict_has d k = true → is_Some (dict_get d k).
Proof.
  unfold dict_has. induction d as [|[k' v'] d IH]; simpl; [discriminate|].
  destruct (String.eqb k' k); simpl; eauto.
Qed.

Lemma dict_get_set_eq d k v : dict_get (dict_set d k v) k = Some v.
Proof.
  induction d as [|[k' v'] d IH]; simpl.
  - by rewrite String.eqb_refl.
  - destruct (String.eqb k' k) eqn:E; simpl; by rewrite E.
Qed.

Lemma dict_get_set_ne d k k' v :
  k ≠ k' → dict_get (dict_set d k v) k' = dict_get d k'.
Proof.
  intros Hne. induction d as [|[k0 v0] d IH]; simpl.
  - apply String.eqb_neq in Hne. by rewrite Hne.
  - destruct (String.eqb k0 k) eqn:E; simpl.
    + apply String.eqb_eq in E. subst k0.
      apply String.eqb_neq in Hne. by rewrite Hne.
    + by rewrite IH.
Qed.

Lemma dict_set_keys d k v :
  map fst (dict_set d k v) =
    if dict_has d k then map fst d else map fst d ++ [k].
Proof.
  unfold dict_has. induction d as [|[k' v'] d IH]; simpl; [done|].
  destruct (String.eqb k' k) eqn:E; simpl; [done|].
  rewrite IH. by destruct (existsb _ d).
Qed.

Lemma dict_has_set d k v : dict_has (dict_set d k v) k = true.
Proof.
  apply dict_has_keys. rewrite dict_set_keys.
  destruct (dict_has d k) eqn:E.
  - by apply dict_has_keys.
  - apply elem_of_app. right. by apply list_elem_of_singleton.
Qed.

Lemma dict_get_entry d k v :
  NoDup (map fst d) → (k, v) ∈ d → dict_get d k = Some v.
Proof.
  induction d as [|[k' v'] d IH]; simpl; intros Hnd Hin.
  - inversion Hin.
  - apply NoDup_cons in Hnd as [Hk' Hnd].
    apply elem_of_cons in Hin as [Heq | Hin].
    + injection Heq as -> ->. by rewrite String.eqb_refl.
    + destruct (String.eqb k' k) eqn:E; [|by apply IH].
      apply String.eqb_eq in E. subst k'.
      exfalso. apply Hk'. apply list_elem_of_fmap. by exists (k, v).
Qed.
End DictFacts.

(** ** [get_csv]: grouping the concepts by code system *)

Lemma add_code_keys (d : dict (list string)) (cs c : string) :
  map fst (add_code d cs c) =
    if dict_has d cs then map fst d else map fst d ++ [cs].
Proof.
  unfold add_code. destruct (dict_has d cs) eqn:E.
  - destruct (dict_get_present d cs E) as [l Hl]. rewrite Hl.
    by rewrite dict_set_keys, E.
  - rewrite dict_get_set_eq, dict_set_keys, dict_has_set.
    by rewrite dict_set_keys, E.
Qed.

Lemma add_code_get_same (d : dict (list string)) (cs c : string) :
  dict_get (add_code d cs c) cs = Some (default [] (dict_get d cs) ++ [c]).
Proof.
  unfold add_code. destruct (dict_has d cs) eqn:E.
  - destruct (dict_get_present d cs E) as [l Hl]. rewrite Hl.
    by rewrite dict_get_set_eq.
  - rewrite dict_get_set_eq, dict_get_set_eq.
    by rewrite (dict_get_absent d cs E).
Qed.

Lemma add_code_get_other (d : dict (list string)) (cs c k : string) :
  cs ≠ k → dict_get (add_code d cs c) k = dict_get d k.
Proof.
  intros Hne. unfold add_code. destruct (dict_has d cs) eqn:E.
  - destruct (dict_get_present d cs E) as [l Hl]. rewrite Hl.
    by rewrite dict_get_set_ne.
  - rewrite dict_get_set_eq. by rewrite !dict_get_set_ne.
Qed.

Lemma codes_in_snoc (k : string) (cl : list concept) (c : concept) :
  codes_in k (cl ++ [c]) =
    codes_in k cl ++ (if String.eqb (codeSystemName c) k then [code c] else []).
Proof.
  unfold codes_in. rewrite List.filter_app, map_app. simpl.
  by destruct (String.eqb (codeSystemName c) k).
Qed.

Lemma codes_in_absent (k : string) (cl : list concept) :
  k ∉ map codeSystemName cl → codes_in k cl = [].
Proof.
  unfold codes_in. induction cl as [|c cl IH]; simpl; [done|].
  intros Hk. apply not_elem_of_cons in Hk as [Hne Hk].
  destruct (String.eqb (codeSystemName c) k) eqn:E.
  - apply String.eqb_eq in E. congruence.
  - by apply IH.
Qed.

(** The invariant of the loop: the keys are the code systems met so far,
    each once, and each key holds the codes of its concepts in order. *)
Lemma grouped_spec (cl : list concept) :
  NoDup (map fst (grouped cl)) ∧
  (∀ k, k ∈ map fst (grouped cl) ↔ k ∈ map codeSystemName cl) ∧
  (∀ k, k ∈ map fst (grouped cl) → dict_get (grouped cl) k = Some (codes_in k cl)).
Proof.
  unfold grouped. induction cl as [|c cl IH] using rev_ind.
  - simpl. split; [constructor|]. split; [done|]. intros k Hk. inversion Hk.
  - rewrite fold_left_app. simpl.
    set (d := fold_left (λ d c, add_code d (codeSystemName c) (code c)) cl []) in *.
    destruct IH as (Hnd & Hkeys & Hget).
    rewrite add_code_keys.
    assert (Hmem : ∀ k, k ∈ (if dict_has d (codeSystemName c)
                             then map fst d else map fst d ++ [codeSystemName c])
                        ↔ k ∈ map codeSystemName (cl ++ [c])).
    { intros k. rewrite map_app, elem_of_app. simpl.
      rewrite list_elem_of_singleton, <- Hkeys.
      destruct (dict_has d (codeSystemName c)) eqn:E.
      - apply dict_has_keys in E. split; [tauto|]. intros [?| ->]; done.
      - rewrite elem_of_app, list_elem_of_singleton. tauto. }
    split; [|split; [exact Hmem|]].
    + destruct (dict_has d (codeSystemName c)) eqn:E; [done|].
      apply NoDup_app. split; [done|]. split; [|apply NoDup_singleton].
      intros k Hk Hk'. apply list_elem_of_singleton in Hk'. subst k.
      by apply dict_has_false in E.
    + intros k Hk. rewrite codes_in_snoc.
      destruct (String.eqb (codeSystemName c) k) eqn:Ek.
      * apply String.eqb_eq in Ek. subst k. rewrite add_code_get_same.
        f_equal. f_equal.
        destruct (dict_has d (codeSystemName c)) eqn:E.
        -- apply dict_has_keys in E. by rewrite (Hget _ E).
        -- rewrite (dict_get_absent d _ E). simpl. symmetry.
           apply codes_in_absent. rewrite <- Hkeys. by apply dict_has_false.
      * apply String.eqb_neq in Ek. rewrite add_code_get_other by done.
        rewrite app_nil_r. apply Hget.
        destruct (dict_has d (codeSystemName c)); [done|].
        apply elem_of_app in Hk as [Hk|Hk]; [done|].
        apply list_elem_of_singleton in Hk. congruence.
Qed.

Lemma collect_codes_to_py (cl : list concept) (d : dict (list string)) :
  collect_codes d (map concept_to_py cl) =
    Some (fold_left (λ d c, add_code d (codeSystemName c) (code c)) cl d).
Proof.
  revert d. induction cl as [|c cl IH]; intros d; [done|].
  simpl. apply IH.
Qed.

(** When the clock stands still, the row loop is a map over the items. *)
Lemma make_rows_const (now : string) (k : nat) (delim : string)
    (value_set name : pyval) (purposes : list string)
    (d : dict (list string)) (items : list (string * list string)) :
  make_rows (λ _, now) k delim value_set name purposes d items =
    mapM (make_row now delim value_set name purposes d) items.
Proof.
  revert k. induction items as [|item items IH]; intros k; [done|].
  cbn [make_rows mapM]. by rewrite IH.
Qed.

Local Ltac same_bind :=
  match goal with
  | |- mbind _ ?o = mbind _ ?o => destruct o; cbn [mbind option_bind]; [|done]
  end.

Lemma rows_of_value_set_at_const (now : string) (k : nat) (delim : string)
    (value_set : pyval) :
  rows_of_value_set_at (λ _, now) k delim value_set =
    rows_of_value_set now delim value_set.
Proof.
  unfold rows_of_value_set, rows_of_value_set_at.
  repeat same_bind. by rewrite !make_rows_const.
Qed.

Lemma rows_of_value_set_eq (now delim : string) (value_set : pyval) :
  rows_of_value_set now delim value_set =
    (name ← getitem value_set "@displayName";
     purpose ← getitem value_set "ns0:Purpose" ≫= as_str;
     purposes ← split purpose "),";
     concept_list ← getitem value_set "ns0:ConceptList";
     concept_entries ← getitem concept_list "ns0:Concept";
     concepts ← iterate concept_entries;
     code_system_codes ← collect_codes [] concepts;
     mapM (make_row now delim value_set name purposes code_system_codes)
          code_system_codes).
Proof.
  unfold rows_of_value_set, rows_of_value_set_at.
  repeat same_bind. by rewrite make_rows_const.
Qed.

Lemma get_csv_rows_at_const (now : string) (k : nat) (delim : string)
    (value_sets : list pyval) :
  get_csv_rows_at (λ _, now) k delim value_sets =
    get_csv_rows now delim value_sets.
Proof.
  unfold get_csv_rows. generalize 0%nat as k'. revert k.
  induction value_sets as [|x l IH]; intros k k'; [done|].
  cbn [get_csv_rows_at]. rewrite !rows_of_value_set_at_const.
  destruct (rows_of_value_set now delim x) as [rows|]; [|done].
  cbn [mbind option_bind].
  by rewrite (IH (k + length rows)%nat (k' + length rows)%nat).
Qed.

Lemma rows_of_at_to_py (clock : nat → string) (k : nat) (delim : string)
    (v : value_set) :
  rows_of_value_set_at clock k delim (to_py v) =
    make_rows clock k delim (to_py v) (PStr (displayName v))
      (split_go ")," 0 (Purpose v)) (grouped (ConceptList v))
      (grouped (ConceptList v)).
Proof.
  unfold rows_of_value_set_at. cbn [to_py getitem dict_get]. simpl.
  by rewrite collect_codes_to_py.
Qed.

Lemma rows_of_to_py (now delim : string) (v : value_set) :
  rows_of_value_set now delim (to_py v) =
    mapM (make_row now delim (to_py v) (PStr (displayName v))
            (split_go ")," 0 (Purpose v)) (grouped (ConceptList v)))
         (grouped (ConceptList v)).
Proof.
  unfold rows_of_value_set. by rewrite rows_of_at_to_py, make_rows_const.
Qed.

(** A row is built exactly when the purpose text has a fourth clause. *)
Lemma make_row_to_py (now delim : string) (v : value_set)
    (purposes : list string) (d : dict (list string)) (cs : string)
    (codes : list string) :
  make_row now delim (to_py v) (PStr (displayName v)) purposes d (cs, codes) =
    limitations ← purposes !! 3%nat;
    Some (PDict [
      ("name", PStr (displayName v));
      ("nameVSAC", PStr ("[VSAC] " +:+ displayName v));
      ("oid", PStr (ID v));
      ("codeSystem", PStr cs);
      ("codes", PStr (join delim codes));
      ("limitations", PStr limitations);
      ("intention", PStr (str (PList (map PStr (take 2 purposes)))));
      ("provenance", PDict [
         ("VSAC Steward", PStr (Source v));
         ("OID", PStr (ID v));
         ("Code System(s)", PStr (join "," (map fst d)));
         ("Definition Type", PStr (Type_ v));
         ("Definition Version", PStr (version v));
         ("Accessed", PStr (drop_last 7 now))])]).
Proof. unfold make_row. simpl. by destruct (purposes !! 3%nat). Qed.

Lemma get_csv_rows_single (now delim : string) (x : pyval) :
  get_csv_rows now delim [x] = rows_of_value_set now delim x.
Proof.
  unfold get_csv_rows, rows_of_value_set. cbn [get_csv_rows_at].
  destruct (rows_of_value_set_at (λ _, now) 0 delim x) as [rows|]; simpl;
    [|done].
  by rewrite app_nil_r.
Qed.

Lemma dict_has_existsb {V} (d : dict V) (k : string) :
  dict_has d k = existsb (λ y, String.eqb y k) (map fst d).
Proof.
  unfold dict_has. induction d as [|[k' v] d IH]; simpl; [done|]. by rewrite IH.
Qed.

(** The keys of [code_system_codes] are the code systems in the order they
    are first met. *)
Lemma grouped_keys (cl : list concept) :
  map fst (grouped cl) = first_seen (map codeSystemName cl).
Proof.
  unfold grouped, first_seen.
  assert (Hgen : ∀ d,
    map fst (fold_left (λ d c, add_code d (codeSystemName c) (code c)) cl d) =
    fold_left (λ seen x, if existsb (λ y, String.eqb y x) seen then seen
                         else seen ++ [x])
              (map codeSystemName cl) (map fst d)).
  { induction cl as [|c cl IH]; intros d; [done|].
    simpl. rewrite IH, add_code_keys, dict_has_existsb.
    by destruct (existsb _ (map fst d)). }
  apply (Hgen []).
Qed.

(** Each item of [code_system_codes] holds the codes of its code system. *)
Lemma grouped_items (cl : list concept) :
  Forall (λ item, snd item = codes_in (fst item) cl) (grouped cl).
Proof.
  destruct (grouped_spec cl) as (Hnd & _ & Hget).
  apply Forall_forall. intros [cs codes] Hin. simpl.
  assert (cs ∈ map fst (grouped cl)) as Hcs.
  { apply list_elem_of_fmap. by exists (cs, codes). }
  specialize (Hget cs Hcs).
  rewrite (dict_get_entry _ cs codes Hnd Hin) in Hget.
  by injection Hget as ->.
Qed.

(** The row loop of a record with a fourth purpose clause, over items that
    hold the codes of their code systems. *)
Lemma make_rows_table (clock : nat → string) (k : nat) (delim : string)
    (v : value_set) (purposes : list string) (lim : string)
    (items : list (string * list string)) :
  purposes !! 3%nat = Some lim →
  Forall (λ item, snd item = codes_in (fst item) (ConceptList v)) items →
  make_rows clock k delim (to_py v) (PStr (displayName v)) purposes
    (grouped (ConceptList v)) items =
    Some (imap (λ i cs, table_row (drop_last 7 (clock (k + i)%nat)) delim v
                          purposes lim cs)
               (map fst items)).
Proof.
  intros Hlim Hall. revert k.
  induction Hall as [|[cs codes] items Hcodes Hall IH]; intros k; [done|].
  cbn [make_rows]. rewrite make_row_to_py, Hlim. cbn [mbind option_bind].
  rewrite IH. cbn [mbind option_bind map imap fst]. f_equal. f_equal.
  - unfold table_row. simpl in Hcodes.
    by rewrite Nat.add_0_r, Hcodes, grouped_keys.
  - apply imap_ext. intros i x _. simpl. by rewrite Nat.add_succ_r.
Qed.

Lemma rows_of_at_to_py_table
    (clock : nat → string) (k : nat) (code_delimiter : string) (v : value_set)
    (limitations : string) :
  split_go ")," 0 (Purpose v) !! 3%nat = Some limitations →
  rows_of_value_set_at clock k code_delimiter (to_py v) =
    Some (record_table_at clock k code_delimiter v
            (split_go ")," 0 (Purpose v)) limitations).
Proof.
  intros Hlim. rewrite rows_of_at_to_py.
  rewrite (make_rows_table clock k code_delimiter v _ limitations _ Hlim
             (grouped_items (ConceptList v))).
  unfold record_table_at. by rewrite grouped_keys.
Qed.

Lemma record_table_at_const (now : string) (k : nat) (code_delimiter : string)
    (v : value_set) (purposes : list string) (limitations : string) :
  record_table_at (λ _, now) k code_delimiter v purposes limitations =
    record_table now code_delimiter v purposes limitations.
Proof. unfold record_table_at, record_table. apply imap_const. Qed.

Lemma rows_of_to_py_table
    (now code_delimiter : string) (v : value_set) (limitations : string) :
  split_go ")," 0 (Purpose v) !! 3%nat = Some limitations →
  rows_of_value_set now code_delimiter (to_py v) =
    Some (record_table now code_delimiter v (split_go ")," 0 (Purpose v))
            limitations).
Proof.
  intros Hlim. unfold rows_of_value_set.
  by rewrite (rows_of_at_to_py_table _ _ _ _ _ Hlim), record_table_at_const.
Qed.

(** A record without concepts adds no row, whatever its purpose text. *)
Lemma rows_of_at_no_concepts
    (clock : nat → string) (k : nat) (code_delimiter : string) (v : value_set) :
  ConceptList v = [] →
  rows_of_value_set_at clock k code_delimiter (to_py v) = Some [].
Proof. intros Hnil. by rewrite rows_of_at_to_py, Hnil. Qed.

(** The rows of a list of records, each without concepts or with a fourth
    purpose clause, are their tables one after the other. *)
Lemma get_csv_rows_at_tables
    (clock : nat → string) (k : nat) (code_delimiter : string)
    (vs : list value_set) :
  Forall (λ v, ConceptList v = [] ∨
               (4 ≤ length (split_go ")," 0 (Purpose v)))%nat) vs →
  get_csv_rows_at clock k code_delimiter (map to_py vs) =
    Some (tables_at clock k code_delimiter vs).
Proof.
  intros Hall. revert k.
  induction Hall as [|v vs Hv Hall IH]; intros k; [done|].
  cbn [map get_csv_rows_at tables_at].
  destruct Hv as [Hnil | Hlen].
  - rewrite (rows_of_at_no_concepts _ _ _ _ Hnil). cbn [mbind option_bind].
    unfold record_table_at. rewrite Hnil. cbn [map first_seen fold_left imap].
    cbn [length app]. by rewrite IH.
  - destruct (lookup_lt_is_Some_2 (split_go ")," 0 (Purpose v)) 3)
      as [lim Hlim]; [lia|].
    rewrite (rows_of_at_to_py_table _ _ _ _ _ Hlim), Hlim.
    cbn [mbind option_bind default]. by rewrite IH.
Qed.

Lemma Forall2_imap_diag {A B} (P : A → B → Prop) (f : nat → A → B)
    (l : list A) :
  (∀ i x, P x (f i x)) → Forall2 P l (imap f l).
Proof.
  revert f. induction l as [|x l IH]; intros f Hf; [constructor|].
  cbn [imap]. constructor; [apply Hf|]. apply IH. intros i y. apply Hf.
Qed.

(** The tables of a list of records are the table of each, one after the
    other. *)
Lemma tables_at_concat (clock : nat → string) (k : nat) (delim : string)
    (vs : list value_set) :
  ∃ tables,
    tables_at clock k delim vs = concat tables ∧
    Forall2 (λ v table,
               ∃ k',
                 table = record_table_at clock k' delim v
                           (split_go ")," 0 (Purpose v))
                           (default EmptyString
                              (split_go ")," 0 (Purpose v) !! 3%nat)))
            vs tables.
Proof.
  revert k. induction vs as [|v vs IH]; intros k.
  - exists []. by split; [|constructor].
  - cbn [tables_at].
    destruct (IH (k + length (record_table_at clock k delim v
                               (split_go ")," 0 (Purpose v))
                               (default EmptyString
                                  (split_go ")," 0 (Purpose v) !! 3%nat))))%nat)
      as (tables & Heq & Hall).
    eexists (_ :: tables). split; [by rewrite Heq|].
    constructor; [by exists k | done].
Qed.

(** C3, as amended: for every list of records whose purpose texts have at
    least four clauses, the rows of [get_csv] are the rows of the first
    record, then those of the second, and so on; the rows of a record are
    one row for each distinct code system of the record's concepts, in the
    order the code systems first appear among them, and a row holds the
    identifier and the name of its record, its code system, and as [codes]
    the codes of the concepts of the record of that code system, in their
    order, joined with the pipe. *)
Theorem get_csv_one_row_per_code_system
    (clock : nat → string) (vs : list value_set) :
  Forall (λ v, ∃ purposes, split (Purpose v) ")," = Some purposes ∧
                           (4 ≤ length purposes)%nat) vs →
  ∃ tables : list (list pyval),
    get_csv_rows_at clock 0 "|" (map to_py vs) = Some (concat tables) ∧
    Forall2
      (λ v table,
         ∃ systems,
           systems = first_seen (map codeSystemName (ConceptList v)) ∧
           NoDup systems ∧
           (∀ cs, cs ∈ systems ↔ cs ∈ map codeSystemName (ConceptList v)) ∧
           Forall2 (λ cs row,
                      getitem row "oid" = Some (PStr (ID v)) ∧
                      getitem row "name" = Some (PStr (displayName v)) ∧
                      getitem row "codeSystem" = Some (PStr cs) ∧
                      getitem row "codes" =
                        Some (PStr (join "|" (codes_in cs (ConceptList v)))))
                   systems table)
      vs tables.
Proof.
  intros Hall.
  destruct (tables_at_concat clock 0 "|" vs) as (tables & Heq & Htables).
  exists tables. split.
  - rewrite get_csv_rows_at_tables; [by rewrite Heq|].
    eapply Forall_impl; [exact Hall|].
    intros v (purposes & Hsplit & Hlen). right. by injection Hsplit as <-.
  - eapply Forall2_impl; [exact Htables|].
    intros v table (k' & ->).
    exists (first_seen (map codeSystemName (ConceptList v))).
    destruct (grouped_spec (ConceptList v)) as (Hnd & Hkeys & _).
    rewrite grouped_keys in Hnd, Hkeys.
    split; [done|]. split; [done|]. split; [done|].
    unfold record_table_at. apply Forall2_imap_diag.
    intros i cs. by repeat split.
Qed.

Lemma get_csv_one_row_per_code_system_witness :
  ∃ tables : list (list pyval),
    get_csv_rows_at Examples.clock 0 "|"
      (map to_py [Examples.asthma_mixed; Examples.asthma_sct])
      = Some (concat tables) ∧
    Forall2
      (λ v table,
         ∃ systems,
           systems = first_seen (map codeSystemName (ConceptList v)) ∧
           NoDup systems ∧
           (∀ cs, cs ∈ systems ↔ cs ∈ map codeSystemName (ConceptList v)) ∧
           Forall2 (λ cs row,
                      getitem row "oid" = Some (PStr (ID v)) ∧
                      getitem row "name" = Some (PStr (displayName v)) ∧
                      getitem row "codeSystem" = Some (PStr cs) ∧
                      getitem row "codes" =
                        Some (PStr (join "|" (codes_in cs (ConceptList v)))))
                   systems table)
      [Examples.asthma_mixed; Examples.asthma_sct] tables.
Proof.
  apply (get_csv_one_row_per_code_system Examples.clock
           [Examples.asthma_mixed; Examples.asthma_sct]).
  constructor; [|constructor; [|constructor]];
    exists ["(Clinical Focus: asthma"; "(Inclusion Criteria: snomed";
            "(Data Element Scope: condition"; "(Exclusion Criteria: none)"];
    (split; [reflexivity | simpl; lia]).
Defined.

(** The two instances the specification names: two code systems give two
    rows, each with its own codes; the end-to-end record gives one row with
    codes [123|456]. *)
Example get_csv_two_code_systems :
  (λ rows, map (λ r, (getitem r "codeSystem", getitem r "codes")) <$> rows)
    (get_csv_rows "2021-03-04 10:11:12.123456" "|" [to_py Examples.asthma_mixed])
  = Some [(Some (PStr "SNOMEDCT"), Some (PStr "123|456"));
          (Some (PStr "ICD10CM"), Some (PStr "J45"))].
Proof. reflexivity. Qed.

Example get_csv_end_to_end :
  (λ rows, map (λ r, (getitem r "codes", getitem r "intention")) <$> rows)
    (get_csv_rows "2021-03-04 10:11:12.123456" "|" [to_py Examples.asthma_sct])
  = Some [(Some (PStr "123|456"),
           Some (PStr "['(Clinical Focus: asthma', '(Inclusion Criteria: snomed']"))].
Proof. reflexivity. Qed.

(** Each row reads the clock itself, and a reading on a whole second, which
    is printed without a fraction, loses the end of its time. *)
Example get_csv_accessed_per_row :
  (λ rows, map (λ r, getitem r "provenance" ≫= λ p, getitem p "Accessed")
             <$> rows)
    (get_csv_rows_at Examples.clock 0 "|"
       [to_py Examples.asthma_mixed; to_py Examples.asthma_sct])
  = Some [Some (PStr "2021-03-04 10:11:12");
          Some (PStr "2021-03-04 10:11:12");
          Some (PStr "2021-03-04 1")].
Proof. reflexivity. Qed.

(** C3, as stated, fails: a record with one concept and a purpose text of a
    single clause has one code system, and [get_csv] raises on
    [purposes[3]] instead of emitting its row. *)
Lemma get_csv_short_purpose_raises :
  map codeSystemName (ConceptList Examples.one_clause) = ["SNOMEDCT"] ∧
  split (Purpose Examples.one_clause) ")," = Some ["(Clinical Focus: asthma)"] ∧
  get_csv_rows "2021-03-04 10:11:12.123456" "|" [to_py Examples.one_clause] = None.
Proof. repeat split. Qed.

(** ** [get_csv]: a record without concepts *)

Lemma get_csv_rows_cons (now delim : string) (x : pyval) (l : list pyval) :
  get_csv_rows now delim (x :: l) =
    rows ← rows_of_value_set now delim x;
    rest ← get_csv_rows now delim l;
    Some (rows ++ rest).
Proof.
  unfold get_csv_rows at 1. cbn [get_csv_rows_at].
  rewrite rows_of_value_set_at_const.
  destruct (rows_of_value_set now delim x) as [rows|]; [|done].
  cbn [mbind option_bind]. by rewrite get_csv_rows_at_const.
Qed.

(** C9: a record whose concept list is empty adds no row: the table of a
    list of records is the table of the list without it. *)
Theorem get_csv_no_concepts_no_rows
    (now code_delimiter : string) (v : value_set) (before after : list pyval) :
  ConceptList v = [] →
  rows_of_value_set now code_delimiter (to_py v) = Some [] ∧
  get_csv_rows now code_delimiter (before ++ to_py v :: after) =
    get_csv_rows now code_delimiter (before ++ after).
Proof.
  intros Hnil.
  assert (Hrows : rows_of_value_set now code_delimiter (to_py v) = Some []).
  { rewrite rows_of_to_py, Hnil. reflexivity. }
  split; [exact Hrows|].
  induction before as [|x before IH]; simpl.
  - rewrite get_csv_rows_cons, Hrows. simpl.
    by destruct (get_csv_rows now code_delimiter after).
  - by rewrite !get_csv_rows_cons, IH.
Qed.

Lemma get_csv_no_concepts_no_rows_witness :
  rows_of_value_set "2021-03-04 10:11:12.123456" "|" (to_py Examples.no_concepts)
    = Some [] ∧
  get_csv_rows "2021-03-04 10:11:12.123456" "|"
    ([to_py Examples.asthma_sct] ++ to_py Examples.no_concepts
       :: [to_py Examples.asthma_mixed]) =
  get_csv_rows "2021-03-04 10:11:12.123456" "|"
    ([to_py Examples.asthma_sct] ++ [to_py Examples.asthma_mixed]).
Proof.
  apply (get_csv_no_concepts_no_rows "2021-03-04 10:11:12.123456" "|"
           Examples.no_concepts [to_py Examples.asthma_sct]
           [to_py Examples.asthma_mixed]).
  reflexivity.
Defined.

(** ** The ticket client *)

Import VsacApi.

Lemma split_go_not_nil (sep : string) (skip : nat) (s : string) :
  split_go sep skip s ≠ [].
Proof.
  revert skip. induction s as [|c s IH]; intros skip; cbn [split_go]; [done|].
  destruct skip; [|apply IH].
  destruct (startswith (String c s) sep); [done|].
  by destruct (split_go sep 0 s).
Qed.

Lemma join_cons (sep x : string) (l : list string) :
  l ≠ [] → join sep (x :: l) = x +:+ sep +:+ join sep l.
Proof. by destruct l. Qed.

Lemma append_assoc (a b c : string) : (a +:+ b) +:+ c = a +:+ b +:+ c.
Proof.
  induction a as [|x a IH]; [done|].
  change (String x ((a +:+ b) +:+ c) = String x (a +:+ b +:+ c)).
  by rewrite IH.
Qed.

Lemma join_snoc (sep x : string) (l : list string) :
  l ≠ [] → join sep (l ++ [x]) = join sep l +:+ sep +:+ x.
Proof.
  induction l as [|y l IH]; [done|]. intros _.
  destruct l as [|z l]; [done|].
  change ((y :: z :: l) ++ [x]) with (y :: ((z :: l) ++ [x])).
  rewrite join_cons by (by destruct l).
  rewrite IH by done.
  rewrite (join_cons sep y (z :: l)) by done.
  by rewrite !append_assoc.
Qed.

Lemma split_slash_cons (c : ascii) (s : string) :
  split_go "/" 0 (String c s) =
    if Ascii.eqb c "/" then EmptyString :: split_go "/" 0 s
    else match split_go "/" 0 s with
         | piece :: rest => String c piece :: rest
         | [] => [String c EmptyString]
         end.
Proof.
  cbn [split_go]. unfold startswith. cbn [String.prefix].
  destruct (ascii_dec "/" c) as [<-|Hne].
  - destruct s; reflexivity.
  - destruct (Ascii.eqb c "/") eqn:E; [|done].
    apply Ascii.eqb_eq in E. congruence.
Qed.

(** Splitting a path on the slash loses nothing: no piece holds a slash and
    the pieces joined by slashes are the path. *)
Lemma split_slash_join (p : string) :
  Forall (λ piece, contains_char "/" piece = false) (split_go "/" 0 p) ∧
  join "/" (split_go "/" 0 p) = p.
Proof.
  induction p as [|c p [IHno IHjoin]]; [by repeat constructor|].
  rewrite split_slash_cons.
  destruct (Ascii.eqb c "/") eqn:E.
  - apply Ascii.eqb_eq in E. subst c. split; [by constructor|].
    rewrite join_cons by apply split_go_not_nil. by rewrite IHjoin.
  - destruct (split_go "/" 0 p) as [|piece rest] eqn:Hs.
    { by destruct (split_go_not_nil "/" 0 p). }
    apply Forall_cons in IHno as [Hpiece Hrest].
    split.
    + constructor; [|done]. simpl. by rewrite E, Hpiece.
    + rewrite <- IHjoin. by destruct rest.
Qed.

(** C7: when the answer to the grant request holds a form whose action URL
    has the path [p], [get_ticket_granting_ticket] returns the part of [p]
    after its last slash (all of [p] when it has no slash). *)
Theorem get_ticket_granting_ticket_last_segment
    (post : request → option response) (API_KEY : string)
    (form_action : string → option string)
    (parse_url_path : string → option (option string))
    (r : response) (tgt_url p : string) :
  post (grant_request API_KEY) = Some r →
  form_action (text r) = Some tgt_url →
  parse_url_path tgt_url = Some (Some p) →
  ∃ segment,
    get_ticket_granting_ticket post API_KEY form_action parse_url_path
      = Some segment ∧
    contains_char "/" segment = false ∧
    (p = segment ∨ ∃ before, p = before +:+ "/" +:+ segment).
Proof.
  intros Hpost Hform Hpath.
  unfold get_ticket_granting_ticket. rewrite Hpost. simpl.
  rewrite Hform. simpl. rewrite Hpath. simpl.
  destruct (split_slash_join p) as [Hno Hjoin].
  destruct (last (split_go "/" 0 p)) as [segment|] eqn:Hlast.
  2: { apply last_None in Hlast. by destruct (split_go_not_nil "/" 0 p). }
  exists segment. split; [done|].
  apply last_Some in Hlast as [init Hinit]. rewrite Hinit in Hno, Hjoin.
  split.
  - apply Forall_app in Hno as [_ Hno]. by inversion Hno.
  - destruct init as [|x init]; [by left|]. right.
    exists (join "/" (x :: init)). rewrite <- Hjoin.
    by apply join_snoc.
Qed.

Lemma get_ticket_granting_ticket_last_segment_witness :
  ∃ segment,
    get_ticket_granting_ticket
      (always (Response 201 "<form action='https://utslogin.nlm.nih.gov/cas/v1/api-key/TGT-42-cas' method='POST'>"))
      "key"
      (λ _, Some "https://utslogin.nlm.nih.gov/cas/v1/api-key/TGT-42-cas")
      (λ _, Some (Some "/cas/v1/api-key/TGT-42-cas"))
      = Some segment ∧
    contains_char "/" segment = false ∧
    ("/cas/v1/api-key/TGT-42-cas" = segment ∨
     ∃ before, "/cas/v1/api-key/TGT-42-cas" = before +:+ "/" +:+ segment).
Proof.
  apply (get_ticket_granting_ticket_last_segment _ "key" _ _
           (Response 201 "<form action='https://utslogin.nlm.nih.gov/cas/v1/api-key/TGT-42-cas' method='POST'>")
           "https://utslogin.nlm.nih.gov/cas/v1/api-key/TGT-42-cas"
           "/cas/v1/api-key/TGT-42-cas"); reflexivity.
Defined.

Example get_ticket_granting_ticket_example :
  get_ticket_granting_ticket
    (always (Response 201 "<form action='https://utslogin.nlm.nih.gov/cas/v1/api-key/TGT-42-cas' method='POST'>"))
    "key"
    (λ _, Some "https://utslogin.nlm.nih.gov/cas/v1/api-key/TGT-42-cas")
    (λ _, Some (Some "/cas/v1/api-key/TGT-42-cas"))
  = Some "TGT-42-cas".
Proof. reflexivity. Qed.

(** C4, as amended: [get_service_ticket] checks neither the status nor the
    body: whenever the request is answered, the ticket it returns is the
    body of the answer as it is. *)
Theorem get_service_ticket_returns_body
    (post : request → option response) (tgt : string) (r : response) :
  post (ticket_request tgt) = Some r →
  get_service_ticket post tgt = Some (text r).
Proof. intros Hpost. unfold get_service_ticket. by rewrite Hpost. Qed.

Lemma get_service_ticket_returns_body_witness :
  get_service_ticket (always (Response 200 "ST-7-cas")) "TGT-42-cas"
    = Some "ST-7-cas".
Proof.
  apply (get_service_ticket_returns_body
           (always (Response 200 "ST-7-cas")) "TGT-42-cas"
           (Response 200 "ST-7-cas")).
  reflexivity.
Defined.

(** It raises only when the request itself does. *)
Lemma get_service_ticket_raises_iff
    (post : request → option response) (tgt : string) :
  get_service_ticket post tgt = None ↔ post (ticket_request tgt) = None.
Proof.
  unfold get_service_ticket. by destruct (post (ticket_request tgt)).
Qed.

(** C4, as stated, fails: on an answer with status 500 and an empty body
    [get_service_ticket] does not raise, it returns the empty ticket. *)
Lemma get_service_ticket_error_status_returns :
  is_2xx (Response 500 EmptyString) = false ∧
  text (Response 500 EmptyString) = EmptyString ∧
  get_service_ticket (always (Response 500 EmptyString)) "TGT-42-cas"
    = Some EmptyString.
Proof. repeat split. Qed.

(** ** Stepping through stateful code *)

Import Eff Eff.Notations.

Section EffFacts.
Context {S : Type}.

Lemma bind_Some {A B} (m : M S A) (k : A → M S B) (s s' : S) (b : B) :
  bind m k s = (Some b, s') →
  ∃ a s1, m s = (Some a, s1) ∧ k a s1 = (Some b, s').
Proof.
  unfold bind. destruct (m s) as [[a|] s1]; [eauto | discriminate].
Qed.

Lemma bind_run {A B} (m : M S A) (k : A → M S B) (s s1 : S) (a : A) :
  m s = (Some a, s1) → bind m k s = k a s1.
Proof. unfold bind. by intros ->. Qed.

Lemma bind_raise {A B} (m : M S A) (k : A → M S B) (s s1 : S) :
  m s = (None, s1) → bind m k s = (None, s1).
Proof. unfold bind. by intros ->. Qed.

Lemma lift_Some {A} (o : option A) (s s' : S) (a : A) :
  lift o s = (Some a, s') → o = Some a ∧ s' = s.
Proof. unfold lift. by intros [= -> ->]. Qed.

(** A relation that every step of a computation respects is respected by
    the computation. *)
Context (P : S → S → Prop) `{!Reflexive P} `{!Transitive P}.

Lemma keeps_ret {A} (a : A) : keeps P (ret a).
Proof. intros s. simpl. reflexivity. Qed.

Lemma keeps_lift {A} (o : option A) : keeps P (lift o).
Proof. intros s. simpl. reflexivity. Qed.

Lemma keeps_raise {A} : keeps P (@raise S A).
Proof. intros s. simpl. reflexivity. Qed.

Lemma keeps_get : keeps P get.
Proof. intros s. simpl. reflexivity. Qed.

Lemma keeps_bind {A B} (m : M S A) (k : A → M S B) :
  keeps P m → (∀ a, keeps P (k a)) → keeps P (bind m k).
Proof.
  intros Hm Hk s. unfold bind. specialize (Hm s).
  destruct (m s) as [[a|] s1]; simpl in *; [|done].
  etrans; [exact Hm | apply Hk].
Qed.

Lemma keeps_modify (f : S → S) : (∀ s, P s (f s)) → keeps P (modify f).
Proof. intros Hf s. apply Hf. Qed.

Lemma keeps_for_each {A B} (l : list A) (body : A → M S B) :
  (∀ x, keeps P (body x)) → keeps P (for_each l body).
Proof.
  intros Hbody. induction l as [|x l IH]; simpl.
  - apply keeps_ret.
  - apply keeps_bind; [apply Hbody|]. intros y.
    apply keeps_bind; [apply IH|]. intros ys. apply keeps_ret.
Qed.
End EffFacts.

(** ** [vsac_to_fhir] and the shared template *)

Import Fhir.

(** The dictionary a successful call returns holds the template's own
    [text] and [compose] objects: [copy] made a new outer dictionary only. *)
Lemma vsac_to_fhir_shares_template
    (T : dict val) (value_set : pyval) (h h' : store) (d : dict val) :
  vsac_to_fhir T value_set h = (Some d, h') →
  dict_get d "text" = dict_get T "text" ∧
  dict_get d "compose" = dict_get T "compose".
Proof.
  unfold vsac_to_fhir. intros H.
  repeat (apply bind_Some in H as (? & ? & _ & H)).
  injection H as <- _.
  split; by rewrite !dict_get_set_ne.
Qed.

(** A record in the shape the service returns (and [vsac_to_vsac] and
    [get_csv] read) has none of the [valueSet.*] keys: [vsac_to_fhir] raises
    on it at once, the template untouched. *)
Lemma vsac_to_fhir_rejects_vsac_record
    (T : dict val) (v : value_set) (h : store) :
  vsac_to_fhir T (to_py v) h = (None, h).
Proof. reflexivity. Qed.

(** C2, at two records converted one after the other: the second result
    carries the first record's description in [text.div], where a
    conversion of the second record alone carries its own; and the first
    result, read again after the second conversion, shows the second
    record's code system.  The nested objects of the template are shared by
    the template and every result. *)
Theorem vsac_to_fhir_depends_on_earlier_record :
  let T := FHIR_JSON_TEMPLATE Examples.url_fmt in
  let h0 := template_store Examples.div_fmt in
  ∃ dA hA dB hAB dB0 hB,
    vsac_to_fhir T Examples.record_a h0 = (Some dA, hA) ∧
    vsac_to_fhir T Examples.record_b hA = (Some dB, hAB) ∧
    vsac_to_fhir T Examples.record_b h0 = (Some dB0, hB) ∧
    text_div (snapshot hB dB0) = Some (PStr "<div>cough findings</div>") ∧
    text_div (snapshot hAB dB) = Some (PStr "<div>asthma conditions</div>") ∧
    include0_system (snapshot hA dA) = Some (PStr "SNOMEDCT") ∧
    include0_system (snapshot hAB dA) = Some (PStr "ICD10CM").
Proof.
  intros T h0. do 6 eexists.
  split; [vm_compute; reflexivity|].
  split; [vm_compute; reflexivity|].
  split; [vm_compute; reflexivity|].
  repeat split; vm_compute; reflexivity.
Qed.

(** ** [run]: the JSON artefact *)

Import Run.

Lemma vsac_to_vsac_no_name (today : string) (v d : pyval) :
  vsac_to_vsac today v = Some d → getitem d "name" = None.
Proof.
  unfold vsac_to_vsac. intros H.
  repeat match type of H with
         | context [mbind _ ?o] =>
             let x := fresh "x" in
             destruct o as [x|]; simpl in H; [|discriminate]
         end.
  by injection H as <-.
Qed.

Lemma convert_omop (E : env) (v : pyval) (w : world) :
  convert E "omop" v w =
    (Plain <$> vsac_to_vsac (today_slashes E) v, w).
Proof.
  unfold convert. simpl. unfold bind, lift, ret.
  by destruct (vsac_to_vsac (today_slashes E) v).
Qed.

(** The loop that fills [d_list] for the OMOP format leaves the state as it
    is, and no element of its result has the key [name]. *)
Lemma for_each_convert_omop (E : env) (vs : list pyval) (w : world) :
  ∃ r, for_each vs (convert E "omop") w = (r, w) ∧
       ∀ ds, r = Some ds →
             length ds = length vs ∧ Forall (λ a, artifact_name a = None) ds.
Proof.
  induction vs as [|v vs (r & Hr & Hds)]; simpl.
  - exists (Some []). split; [done|]. intros ds [= <-]. by split.
  - unfold bind at 1. rewrite convert_omop.
    destruct (vsac_to_vsac (today_slashes E) v) as [d|] eqn:Hd; simpl.
    2: { exists None. by split. }
    unfold bind at 1. rewrite Hr. destruct r as [ds|].
    2: { exists None. by split. }
    exists (Some (Plain d :: ds)). split; [done|]. intros ds' [= <-].
    destruct (Hds ds eq_refl) as [Hlen Hall]. split; [simpl; by rewrite Hlen|].
    constructor; [|done]. simpl.
    by rewrite (vsac_to_vsac_no_name _ _ _ Hd).
Qed.

Lemma run_emit_json (E : env) (format fd cd : string) (json_indent : Z)
    (value_sets : pyval) :
  run_emit E "json" format fd cd json_indent value_sets =
    (let* records := lift (iterate value_sets) in
     let* d_list := for_each records (convert E format) in
     for_each d_list (save E json_indent) ;;; ret tt).
Proof. reflexivity. Qed.

(** C5, for the OMOP format: whatever the records, at least one, the JSON
    artefact is never written: either a conversion raises, or the first
    result has no key [name] and [d['name']] raises, before any file is
    opened. *)
Theorem run_json_omop_raises_before_writing
    (E : env) (field_delimiter code_delimiter : string) (json_indent : Z)
    (value_set : pyval) (rest : list pyval) (w : world) :
  run_emit E "json" "omop" field_delimiter code_delimiter json_indent
           (PList (value_set :: rest)) w = (None, w).
Proof.
  rewrite run_emit_json.
  rewrite (bind_run _ _ w w (value_set :: rest)) by reflexivity.
  destruct (for_each_convert_omop E (value_set :: rest) w) as (r & Hr & Hds).
  destruct r as [ds|]; [|by rewrite (bind_raise _ _ w w Hr)].
  rewrite (bind_run _ _ w w ds Hr).
  destruct (Hds ds eq_refl) as [Hlen Hall].
  destruct ds as [|a ds]; [discriminate|].
  apply Forall_cons in Hall as [Ha _].
  apply bind_raise. simpl. apply bind_raise. unfold save.
  apply bind_raise. by rewrite Ha.
Qed.

(** For the FHIR format the files are named after [d['name']]; their
    contents show the shared template: both files carry the first
    description and the last code system. *)
Example run_json_fhir_files :
  let w := snd (run_emit Examples.env "json" "fhir" "," "|" 4
                  (PList [Examples.record_a; Examples.record_b]) Examples.cold) in
  files w =
    [("Asthma.json",
      "{'resourceType': 'ValueSet', 'id': 1, 'text': {'status': 'generated', 'div': '<div>asthma conditions</div>'}, 'url': 'http://example.org/fhir/ValueSet/1', 'name': 'Asthma', 'title': 'Asthma', 'status': 'active', 'description': 'asthma conditions', 'compose': {'include': [{'system': 'ICD10CM', 'version': '2020', 'concept': []}]}}");
     ("Cough.json",
      "{'resourceType': 'ValueSet', 'id': 2, 'text': {'status': 'generated', 'div': '<div>asthma conditions</div>'}, 'url': 'http://example.org/fhir/ValueSet/2', 'name': 'Cough', 'title': 'Cough', 'status': 'draft', 'description': 'cough findings', 'compose': {'include': [{'system': 'ICD10CM', 'version': '2020', 'concept': []}]}}")].
Proof. vm_compute. reflexivity. Qed.

(** ** [run]: the cache *)

#[local] Instance quiet_refl : Reflexive quiet.
Proof. by intros w. Qed.

#[local] Instance quiet_trans : Transitive quiet.
Proof. unfold quiet. intros w1 w2 w3 H12 H23. by rewrite H23. Qed.

Lemma emit_quiet (e : event) : is_network e = false → keeps quiet (emit e).
Proof.
  intros He. apply keeps_modify. intros w. unfold quiet, network_calls. simpl.
  rewrite List.filter_app. simpl. rewrite He. by rewrite app_nil_r.
Qed.

(** The write of a file that can be opened, and of one that cannot. *)
Lemma write_file_run (path contents : string) (w : world) :
  can_open w path = true →
  write_file path contents w =
    (Some tt, set_file path contents (log_event (WriteFile path) w)).
Proof.
  intros Hopen. unfold write_file, bind, get, emit, modify. by rewrite Hopen.
Qed.

Lemma write_file_raise (path contents : string) (w : world) :
  can_open w path = false → write_file path contents w = (None, w).
Proof.
  intros Hopen. unfold write_file, bind, get, raise. by rewrite Hopen.
Qed.

Lemma write_file_Some (path contents : string) (w w' : world) (u : unit) :
  write_file path contents w = (Some u, w') →
  can_open w path = true ∧
  w' = set_file path contents (log_event (WriteFile path) w).
Proof.
  destruct (can_open w path) eqn:Hopen.
  - rewrite write_file_run by done. by intros [= _ <-].
  - by rewrite write_file_raise.
Qed.

Lemma write_file_quiet (path contents : string) :
  keeps quiet (write_file path contents).
Proof.
  intros w. destruct (can_open w path) eqn:Hopen.
  - rewrite write_file_run by done. unfold quiet, network_calls. simpl.
    rewrite List.filter_app. simpl. by rewrite app_nil_r.
  - by rewrite write_file_raise.
Qed.


Lemma mkdir_raise (path : string) (w : world) :
  parent_exists w path = false → mkdir path w = (None, w).
Proof.
  intros Hparent. unfold mkdir, bind, get, raise.
  rewrite Hparent. by rewrite orb_true_r.
Qed.

Lemma mkdir_quiet (path : string) : keeps quiet (mkdir path).
Proof.
  intros w. unfold mkdir, bind, get, raise, modify.
  by destruct (_ || _).
Qed.

Lemma on_template_quiet {A} (m : M store A) : keeps quiet (on_template m).
Proof. intros w. unfold on_template. by destruct (m (template w)). Qed.

Local Ltac quiet_steps :=
  repeat first
    [ apply keeps_ret; apply _
    | apply keeps_lift; apply _
    | apply keeps_get; apply _
    | apply write_file_quiet
    | apply on_template_quiet
    | apply keeps_for_each; [apply _ | apply _ | intros ?]
    | apply keeps_bind; [apply _ | | intros ?] ].

Lemma get_csv_quiet (E : env) (value_sets : pyval) (fd cd : string) :
  keeps quiet (get_csv E value_sets fd cd).
Proof.
  unfold get_csv, path_exists. quiet_steps.
  match goal with |- keeps _ (if ?b then _ else _) => destruct b end;
    [quiet_steps | apply mkdir_quiet].
Qed.

Lemma convert_quiet (E : env) (format : string) (value_set : pyval) :
  keeps quiet (convert E format value_set).
Proof.
  unfold convert.
  destruct (String.eqb format "fhir"); [quiet_steps|].
  destruct (String.eqb format "omop"); quiet_steps.
Qed.

Lemma save_quiet (E : env) (json_indent : Z) (d : artifact) :
  keeps quiet (save E json_indent d).
Proof. unfold save, artifact_tree. destruct d; quiet_steps. Qed.

(** The second half of [run] calls no collaborator. *)
Lemma run_emit_quiet (E : env) (artefact format fd cd : string)
    (json_indent : Z) (value_sets : pyval) :
  keeps quiet (run_emit E artefact format fd cd json_indent value_sets).
Proof.
  unfold run_emit.
  destruct (String.eqb artefact "tsv_code").
  { apply keeps_bind; [apply _ | apply get_csv_quiet | intros ?; quiet_steps]. }
  destruct (String.eqb artefact "json"); [|quiet_steps].
  apply keeps_bind; [apply _ | quiet_steps | intros records].
  apply keeps_bind; [apply _ | | intros d_list].
  - apply keeps_for_each; [apply _ | apply _ |]. apply convert_quiet.
  - apply keeps_bind; [apply _ | | intros ?; quiet_steps].
    apply keeps_for_each; [apply _ | apply _ |]. apply save_quiet.
Qed.

Lemma dict_get_has {V} (d : dict V) (k : string) (v : V) :
  dict_get d k = Some v → dict_has d k = true.
Proof.
  intros Hget. destruct (dict_has d k) eqn:E; [done|].
  by rewrite (dict_get_absent d k E) in Hget.
Qed.

(** With caching on and the cache file there, the first half of [run] is the
    load of the file. *)
Lemma run_fetch_hit (E : env) (w : world) (bytes : string) :
  dict_get (files w) (pickle_file E) = Some bytes →
  run_fetch E true w =
    (pickle_loads E bytes, log_event (LoadCache (pickle_file E)) w).
Proof.
  intros Hget. pose proof (dict_get_has _ _ _ Hget) as Hhas.
  unfold run_fetch, is_file, load_cache, emit, bind, get, modify, lift, ret.
  simpl. rewrite Hhas. simpl. rewrite Hget.
  by destruct (pickle_loads E bytes).
Qed.

(** With caching off, or without a cache file, it is the fetch. *)
Lemma run_fetch_miss (E : env) (use_cache : bool) (w : world) :
  use_cache = false ∨ dict_has (files w) (pickle_file E) = false →
  run_fetch E use_cache w = fetch E w.
Proof.
  intros [-> | Hmiss]; [reflexivity|].
  destruct use_cache; [|reflexivity].
  unfold run_fetch, is_file, bind at 1, bind at 1, get, ret.
  simpl. by rewrite Hmiss.
Qed.

(** A fetch that returns has written what it returns to the cache file. *)
Lemma fetch_writes_cache (E : env) (w w1 : world) (value_sets : pyval) :
  fetch E w = (Some value_sets, w1) →
  dict_get (files w1) (pickle_file E) = Some (pickle_dumps E value_sets).
Proof.
  unfold fetch. intros H.
  repeat match type of H with
         | bind _ _ _ = (Some _, _) =>
             let H' := fresh "Hstep" in
             apply bind_Some in H as (? & ? & H' & H)
         end.
  injection H as -> ->.
  match goal with
  | Hw : write_file _ _ _ = _ |- _ => apply write_file_Some in Hw as [_ ->]
  end.
  simpl. apply dict_get_set_eq.
Qed.

(** The second half of [run] leaves the cache file as it is. *)

Lemma append_not_empty (a b : string) : b ≠ EmptyString → a +:+ b ≠ EmptyString.
Proof. destruct a; [done|]. intros _. discriminate. Qed.

Lemma last_char_app (a b : string) :
  b ≠ EmptyString → last_char (a +:+ b) = last_char b.
Proof.
  intros Hb. induction a as [|c a IH]; [done|].
  change (String c a +:+ b) with (String c (a +:+ b)).
  cbn [last_char]. pose proof (append_not_empty a b Hb) as Hab.
  destruct (a +:+ b) eqn:E; [done | exact IH].
Qed.

(** A joined path ends as its second part does. *)
Lemma path_join_last_char (a b : string) :
  b ≠ EmptyString → last_char (path_join a b) = last_char b.
Proof.
  intros Hb. unfold path_join.
  destruct (startswith b "/"); [done|].
  destruct (last_char a) as [c|]; [|done].
  destruct (Ascii.eqb c "/"); by rewrite !last_char_app.
Qed.

Lemma pickle_file_last_char (E : env) : last_char (pickle_file E) = Some "e"%char.
Proof. unfold pickle_file. by rewrite path_join_last_char. Qed.

#[local] Instance cache_kept_refl (E : env) : Reflexive (cache_kept E).
Proof. by intros w. Qed.

#[local] Instance cache_kept_trans (E : env) : Transitive (cache_kept E).
Proof. unfold cache_kept. intros w1 w2 w3 H12 H23. by rewrite H23. Qed.

Lemma write_file_keeps_cache (E : env) (path contents : string) :
  path ≠ pickle_file E → keeps (cache_kept E) (write_file path contents).
Proof.
  intros Hne w. destruct (can_open w path) eqn:Hopen.
  - rewrite write_file_run by done. unfold cache_kept. simpl.
    by apply dict_get_set_ne.
  - by rewrite write_file_raise.
Qed.

Lemma mkdir_keeps_cache (E : env) (path : string) :
  keeps (cache_kept E) (mkdir path).
Proof.
  intros w. unfold mkdir, bind, get, raise, modify.
  by destruct (_ || _).
Qed.

Lemma on_template_keeps_cache {A} (E : env) (m : M store A) :
  keeps (cache_kept E) (on_template m).
Proof. intros w. unfold on_template. by destruct (m (template w)). Qed.

Local Ltac cache_steps :=
  repeat first
    [ apply keeps_ret; apply _
    | apply keeps_lift; apply _
    | apply keeps_get; apply _
    | apply on_template_keeps_cache
    | apply write_file_keeps_cache
    | apply keeps_for_each; [apply _ | apply _ | intros ?]
    | apply keeps_bind; [apply _ | | intros ?] ].

Local Ltac other_suffix :=
  let Heq := fresh "Heq" in
  intros Heq; apply (f_equal last_char) in Heq;
  rewrite pickle_file_last_char in Heq;
  first [ by rewrite path_join_last_char in Heq
        | by rewrite last_char_app in Heq ].

Lemma get_csv_keeps_cache (E : env) (value_sets : pyval) (fd cd : string) :
  keeps (cache_kept E) (get_csv E value_sets fd cd).
Proof.
  unfold get_csv, path_exists. cache_steps.
  - match goal with |- keeps _ (if ?b then _ else _) => destruct b end;
      [cache_steps | apply mkdir_keeps_cache].
  - other_suffix.
Qed.

Lemma save_keeps_cache (E : env) (json_indent : Z) (d : artifact) :
  keeps (cache_kept E) (save E json_indent d).
Proof. unfold save, artifact_tree. destruct d; cache_steps; other_suffix. Qed.

Lemma convert_keeps_cache (E : env) (format : string) (value_set : pyval) :
  keeps (cache_kept E) (convert E format value_set).
Proof.
  unfold convert.
  destruct (String.eqb format "fhir"); [cache_steps|].
  destruct (String.eqb format "omop"); cache_steps.
Qed.

Lemma run_emit_cache_kept
    (E : env) (artefact format field_delimiter code_delimiter : string)
    (json_indent : Z) (value_sets : pyval) :
  keeps (cache_kept E)
    (run_emit E artefact format field_delimiter code_delimiter json_indent
       value_sets).
Proof.
  unfold run_emit.
  destruct (String.eqb artefact "tsv_code").
  { apply keeps_bind; [apply _ | apply get_csv_keeps_cache | intros ?; cache_steps]. }
  destruct (String.eqb artefact "json"); [|cache_steps].
  apply keeps_bind; [apply _ | cache_steps | intros records].
  apply keeps_bind; [apply _ | | intros d_list].
  - apply keeps_for_each; [apply _ | apply _ |]. apply convert_keeps_cache.
  - apply keeps_bind; [apply _ | | intros ?; cache_steps].
    apply keeps_for_each; [apply _ | apply _ |]. apply save_keeps_cache.
Qed.

(** What a fetch does when every collaborator answers and the cache file
    can be opened: the three calls in order, then the write of the cache
    file. *)
Lemma fetch_ok (E : env) (w : world)
    (df tgt value_sets_dict response value_sets : pyval) (column : list pyval) :
  get_sheets_data E = Some df →
  getitem df "OID" ≫= iterate = Some column →
  get_ticket_granting_ticket E = Some tgt →
  get_value_sets E (List.filter (λ x, negb (is_empty_str x)) column) tgt
    = Some value_sets_dict →
  getitem value_sets_dict "ns0:RetrieveMultipleValueSetsResponse" = Some response →
  getitem response "ns0:DescribedValueSet" = Some value_sets →
  can_open w (pickle_file E) = true →
  fetch E w =
    (Some value_sets,
     set_file (pickle_file E) (pickle_dumps E value_sets)
       (log_event (WriteFile (pickle_file E))
          (log_event (FetchValueSets
                        (List.filter (λ x, negb (is_empty_str x)) column) tgt)
             (log_event RequestGrant (log_event ReadSheet w))))).
Proof.
  intros Hdf Hcol Htgt Hvs Hresp Hlist Hopen.
  unfold fetch, emit, bind, modify, lift, ret. simpl.
  rewrite Hdf, Hcol, Htgt, Hvs, Hresp, Hlist.
  by rewrite write_file_run.
Qed.

Lemma network_calls_snoc (w : world) (e : event) :
  network_calls (log_event e w) =
    network_calls w ++ (if is_network e then [e] else []).
Proof. unfold network_calls. simpl. by rewrite List.filter_app. Qed.

(** C6: with caching on and the cache file there, [run] is the load of the
    records from the cache file followed by the making of the artefact, and
    it calls no collaborator; with caching off or no cache file, when the
    collaborators answer and the cache file can be opened, [run] reads the
    sheet, asks for the grant, fetches the value sets in one call and writes
    what it fetched to the cache file, then makes the artefact of what it
    fetched: these three are its calls to the collaborators, and the cache
    file holds what it fetched when it ends. *)
Theorem run_cache_hit_skips_network_else_fetches
    (E : env) (artefact format field_delimiter code_delimiter : string)
    (json_indent : Z) (w : world) :
  (∀ bytes,
     dict_get (files w) (pickle_file E) = Some bytes →
     run E artefact format field_delimiter code_delimiter json_indent true w =
       bind (lift (pickle_loads E bytes))
            (run_emit E artefact format field_delimiter code_delimiter
               json_indent)
            (log_event (LoadCache (pickle_file E)) w) ∧
     network_calls
       (snd (run E artefact format field_delimiter code_delimiter json_indent
               true w)) = network_calls w) ∧
  (∀ use_cache df tgt value_sets_dict response value_sets column,
     use_cache = false ∨ dict_has (files w) (pickle_file E) = false →
     get_sheets_data E = Some df →
     getitem df "OID" ≫= iterate = Some column →
     get_ticket_granting_ticket E = Some tgt →
     get_value_sets E (List.filter (λ x, negb (is_empty_str x)) column) tgt
       = Some value_sets_dict →
     getitem value_sets_dict "ns0:RetrieveMultipleValueSetsResponse"
       = Some response →
     getitem response "ns0:DescribedValueSet" = Some value_sets →
     can_open w (pickle_file E) = true →
     let object_ids := List.filter (λ x, negb (is_empty_str x)) column in
     let w1 :=
       set_file (pickle_file E) (pickle_dumps E value_sets)
         (log_event (WriteFile (pickle_file E))
            (log_event (FetchValueSets object_ids tgt)
               (log_event RequestGrant (log_event ReadSheet w)))) in
     let end_of_run :=
       run E artefact format field_delimiter code_delimiter json_indent
         use_cache w in
     end_of_run =
       run_emit E artefact format field_delimiter code_delimiter json_indent
         value_sets w1 ∧
     network_calls (snd end_of_run) =
       network_calls w ++
         [ReadSheet; RequestGrant; FetchValueSets object_ids tgt] ∧
     dict_get (files (snd end_of_run)) (pickle_file E) =
       Some (pickle_dumps E value_sets)).
Proof.
  split.
  - intros bytes Hget.
    assert (Hrun : run E artefact format field_delimiter code_delimiter
                     json_indent true w =
                   bind (lift (pickle_loads E bytes))
                     (run_emit E artefact format field_delimiter
                        code_delimiter json_indent)
                     (log_event (LoadCache (pickle_file E)) w)).
    { unfold run, bind. rewrite (run_fetch_hit E w bytes Hget).
      unfold lift. by destruct (pickle_loads E bytes). }
    split; [exact Hrun|]. rewrite Hrun.
    assert (Hload : network_calls (log_event (LoadCache (pickle_file E)) w)
                    = network_calls w).
    { rewrite network_calls_snoc. simpl. by rewrite app_nil_r. }
    unfold bind, lift.
    destruct (pickle_loads E bytes) as [value_sets|]; simpl; [|exact Hload].
    rewrite <- Hload. apply run_emit_quiet.
  - intros use_cache df tgt value_sets_dict response value_sets column
      Hmiss Hdf Hcol Htgt Hvs Hresp Hlist Hopen object_ids w1 end_of_run.
    assert (Hrun : end_of_run =
                   run_emit E artefact format field_delimiter code_delimiter
                     json_indent value_sets w1).
    { unfold end_of_run, run.
      apply bind_run. rewrite (run_fetch_miss E use_cache w Hmiss).
      by eapply fetch_ok. }
    split; [exact Hrun|]. rewrite Hrun. split.
    + etrans; [apply run_emit_quiet|].
      unfold w1, network_calls. simpl. rewrite !List.filter_app. simpl.
      by rewrite app_nil_r, <- !app_assoc.
    + etrans; [apply run_emit_cache_kept|].
      unfold w1. simpl. apply dict_get_set_eq.
Qed.

Lemma run_cache_hit_skips_network_else_fetches_witness :
  (run Examples.env "tsv_code" "omop" "," "|" 4 true Examples.warm =
     bind (lift (Some Examples.fetched))
          (run_emit Examples.env "tsv_code" "omop" "," "|" 4)
          (log_event (LoadCache "cache/value_sets.pickle") Examples.warm) ∧
   network_calls (snd (run Examples.env "tsv_code" "omop" "," "|" 4 true
                         Examples.warm)) = []) ∧
  (let object_ids := [PStr "2.16.840.1.113762.1.4.1047.20";
                      PStr "2.16.840.1.113762.1.4.1047.21"] in
   let w1 :=
     set_file "cache/value_sets.pickle" (repr Examples.fetched)
       (log_event (WriteFile "cache/value_sets.pickle")
          (log_event (FetchValueSets object_ids (PStr "TGT-42-cas"))
             (log_event RequestGrant (log_event ReadSheet Examples.cold)))) in
   let end_of_run :=
     run Examples.env "tsv_code" "omop" "," "|" 4 true Examples.cold in
   end_of_run = run_emit Examples.env "tsv_code" "omop" "," "|" 4
                  Examples.fetched w1 ∧
   network_calls (snd end_of_run) =
     [ReadSheet; RequestGrant; FetchValueSets object_ids (PStr "TGT-42-cas")] ∧
   dict_get (files (snd end_of_run)) "cache/value_sets.pickle" =
     Some (repr Examples.fetched)).
Proof.
  split.
  - apply (proj1 (run_cache_hit_skips_network_else_fetches
                    Examples.env "tsv_code" "omop" "," "|" 4 Examples.warm)
             (repr Examples.fetched)).
    reflexivity.
  - apply (proj2 (run_cache_hit_skips_network_else_fetches
                    Examples.env "tsv_code" "omop" "," "|" 4 Examples.cold)
             true
             (PDict [("OID", PList [PStr "2.16.840.1.113762.1.4.1047.20";
                                    PStr EmptyString;
                                    PStr "2.16.840.1.113762.1.4.1047.21"])])
             (PStr "TGT-42-cas")
             (PDict [("ns0:RetrieveMultipleValueSetsResponse",
                      PDict [("ns0:DescribedValueSet", Examples.fetched)])])
             (PDict [("ns0:DescribedValueSet", Examples.fetched)])
             Examples.fetched
             [PStr "2.16.840.1.113762.1.4.1047.20"; PStr EmptyString;
              PStr "2.16.840.1.113762.1.4.1047.21"]);
      first [by right | reflexivity].
Defined.


(* ===================================================================== *)
(** * Further properties of the converters, the client and the run *)
(* ===================================================================== *)

(** ** Splitting *)

Lemma startswith_self_app (sep rest : string) : startswith (sep +:+ rest) sep = true.
Proof.
  unfold startswith. induction sep as [|c sep IH]; [by destruct rest|].
  change (String c sep +:+ rest) with (String c (sep +:+ rest)).
  cbn [String.prefix]. by destruct (ascii_dec c c).
Qed.

Lemma startswith_other_char (c c0 : ascii) (s sep : string) :
  c ≠ c0 → startswith (String c s) (String c0 sep) = false.
Proof.
  intros Hne. unfold startswith. cbn [String.prefix].
  destruct (ascii_dec c0 c); [congruence | done].
Qed.

Lemma contains_char_cons (c x : ascii) (s : string) :
  contains_char c (String x s) = false → x ≠ c ∧ contains_char c s = false.
Proof.
  simpl. intros H. apply orb_false_iff in H as [Hx Hs].
  split; [|done]. intros ->. by rewrite Ascii.eqb_refl in Hx.
Qed.

Lemma contains_char_app (c : ascii) (a b : string) :
  contains_char c (a +:+ b) = contains_char c a || contains_char c b.
Proof.
  induction a as [|x a IH]; [done|].
  change (String x a +:+ b) with (String x (a +:+ b)). simpl.
  by rewrite IH, orb_assoc.
Qed.

(** The characters of a separator just matched are passed over. *)
Lemma split_go_skip (sep x rest : string) :
  split_go sep (String.length x) (x +:+ rest) = split_go sep 0 rest.
Proof. induction x as [|c x IH]; [done|]. exact IH. Qed.

(** A text in which the separator does not occur is one piece. *)
Lemma split_go_no_occurrence (sep s : string) :
  occurs sep s = false → split_go sep 0 s = [s].
Proof.
  induction s as [|c s IH]; [done|].
  cbn [occurs split_go]. intros H. apply orb_false_iff in H as [Hhere Hlater].
  rewrite Hhere, (IH Hlater). done.
Qed.

Lemma occurs_step (sep : string) (c : ascii) (s : string) :
  startswith (String c s) sep = false → occurs sep s = false →
  occurs sep (String c s) = false.
Proof. intros Hhere Hlater. cbn [occurs]. by rewrite Hhere, Hlater. Qed.

Lemma occurs_without_first_char (c0 : ascii) (sep s : string) :
  contains_char c0 s = false → occurs (String c0 sep) s = false.
Proof.
  induction s as [|c s IH]; [done|].
  intros H. apply contains_char_cons in H as [Hne Hs].
  cbn [occurs]. by rewrite (startswith_other_char c c0 s sep Hne), (IH Hs).
Qed.

(** The first piece: a text without the first character of the separator,
    followed by the separator, is cut right there. *)
Lemma split_go_first (c0 : ascii) (sep a rest : string) :
  contains_char c0 a = false →
  split_go (String c0 sep) 0 (a +:+ String c0 sep +:+ rest) =
    a :: split_go (String c0 sep) 0 rest.
Proof.
  induction a as [|x a IH]; intros Ha.
  - change (EmptyString +:+ String c0 sep +:+ rest) with (String c0 (sep +:+ rest)).
    cbn [split_go].
    change (String c0 (sep +:+ rest)) with (String c0 sep +:+ rest).
    rewrite startswith_self_app.
    change (String.length (String c0 sep) - 1)%nat with (String.length sep - 0)%nat.
    by rewrite Nat.sub_0_r, split_go_skip.
  - apply contains_char_cons in Ha as [Hne Ha].
    change (String x a +:+ String c0 sep +:+ rest)
      with (String x (a +:+ String c0 sep +:+ rest)).
    cbn [split_go]. rewrite (startswith_other_char x c0 _ sep Hne).
    by rewrite (IH Ha).
Qed.

(** ** [vsac_to_vsac]: more *)

Lemma vsac_to_vsac_intention_witness :
  ∃ purpose clause0 rest cf ic des ec,
    getitem (to_py Examples.labels_in_first_clause) "ns0:Purpose"
      = Some (PStr purpose) ∧
    split purpose ")," = Some (clause0 :: rest) ∧
    after_label clause0 "(Clinical Focus: " = Some cf ∧
    after_label clause0 "(Inclusion Criteria: " = Some ic ∧
    after_label clause0 "(Data Element Scope: " = Some des ∧
    after_label clause0 "(Exclusion Criteria: " = Some ec.
Proof.
  destruct (vsac_to_vsac_intention "2021/03/04"
              (to_py Examples.labels_in_first_clause)
              (default PNone (vsac_to_vsac "2021/03/04"
                                (to_py Examples.labels_in_first_clause)))
              eq_refl)
    as (purpose & clause0 & rest & cf & ic & des & ec & H1 & H2 & H3 & H4 & H5 & H6 & _).
  exists purpose, clause0, rest, cf, ic, des, ec. auto 10.
Defined.

(** [vsac_to_vsac] raises as soon as the first clause lacks the Inclusion
    Criteria label. *)
Lemma vsac_to_vsac_needs_inclusion_in_first_clause
    (today : string) (v : value_set) (clause0 : string) (rest : list string) :
  split_go ")," 0 (Purpose v) = clause0 :: rest →
  after_label clause0 "(Inclusion Criteria: " = None →
  vsac_to_vsac today (to_py v) = None.
Proof.
  intros Hfirst Hlabel.
  unfold vsac_to_vsac. cbn [to_py getitem dict_get]. simpl.
  rewrite Hfirst. cbn [lookup list_lookup mbind option_bind].
  destruct (after_label clause0 "(Clinical Focus: ");
    cbn [mbind option_bind]; [|reflexivity].
  rewrite Hlabel. reflexivity.
Qed.

(** A Clinical Focus clause whose text has no opening parenthesis does not
    hold the Inclusion Criteria label. *)
Lemma focus_clause_lacks_inclusion (focus : string) :
  contains_char "(" focus = false →
  occurs "(Inclusion Criteria: " ("(Clinical Focus: " +:+ focus) = false.
Proof.
  intros Hopen.
  change ("(Clinical Focus: " +:+ focus)
    with (String "(" (String "C" (String "l" (String "i" (String "n"
         (String "i" (String "c" (String "a" (String "l" (String " "
         (String "F" (String "o" (String "c" (String "u" (String "s"
         (String ":" (String " " focus))))))))))))))))).
  apply occurs_step; [reflexivity|].
  do 16 (apply occurs_step; [by apply startswith_other_char|]).
  by apply occurs_without_first_char.
Qed.

(** Whatever follows it, a purpose text that opens with a Clinical Focus
    clause free of parentheses and closed by [),] makes [vsac_to_vsac]
    raise: the first clause is that clause alone, and the Inclusion
    Criteria label is looked for in it. *)
Theorem vsac_to_vsac_raises_on_separate_clauses
    (today : string) (v : value_set) (focus rest : string) :
  Purpose v = "(Clinical Focus: " +:+ focus +:+ ")," +:+ rest →
  contains_char "(" focus = false →
  contains_char ")" focus = false →
  split_go ")," 0 (Purpose v) !! 0%nat = Some ("(Clinical Focus: " +:+ focus) ∧
  after_label ("(Clinical Focus: " +:+ focus) "(Inclusion Criteria: " = None ∧
  vsac_to_vsac today (to_py v) = None.
Proof.
  intros Hpurpose Hopen Hclose.
  assert (Hfirst : split_go ")," 0 (Purpose v) =
                   ("(Clinical Focus: " +:+ focus) :: split_go ")," 0 rest).
  { rewrite Hpurpose.
    rewrite <- (append_assoc "(Clinical Focus: " focus (")," +:+ rest)).
    apply split_go_first. rewrite contains_char_app, Hclose. reflexivity. }
  assert (Hlabel : after_label ("(Clinical Focus: " +:+ focus)
                     "(Inclusion Criteria: " = None).
  { unfold after_label, split. cbn [mbind option_bind].
    by rewrite (split_go_no_occurrence _ _ (focus_clause_lacks_inclusion focus Hopen)). }
  split; [by rewrite Hfirst|]. split; [exact Hlabel|].
  exact (vsac_to_vsac_needs_inclusion_in_first_clause today v _ _ Hfirst Hlabel).
Qed.

Lemma vsac_to_vsac_raises_on_separate_clauses_witness :
  split_go ")," 0 (Purpose Examples.asthma_sct) !! 0%nat
    = Some ("(Clinical Focus: " +:+ "asthma") ∧
  after_label ("(Clinical Focus: " +:+ "asthma") "(Inclusion Criteria: " = None ∧
  vsac_to_vsac "2021/03/04" (to_py Examples.asthma_sct) = None.
Proof.
  apply (vsac_to_vsac_raises_on_separate_clauses "2021/03/04" Examples.asthma_sct
           "asthma"
           "(Inclusion Criteria: snomed),(Data Element Scope: condition),(Exclusion Criteria: none)");
    reflexivity.
Defined.

(** A record without one of the four keys [vsac_to_vsac] reads makes it
    raise, also when the purpose text is fine. *)
Theorem vsac_to_vsac_missing_key (today : string) (v : pyval) :
  getitem v "ns0:Purpose" = None ∨ getitem v "@displayName" = None ∨
  getitem v "ns0:RevisionDate" = None ∨ getitem v "ns0:Source" = None →
  vsac_to_vsac today v = None.
Proof.
  intros [H|[H|[H|H]]]; unfold vsac_to_vsac.
  - rewrite H. reflexivity.
  - destruct (getitem v "ns0:Purpose" ≫= as_str); simpl; [|reflexivity].
    rewrite H. reflexivity.
  - destruct (getitem v "ns0:Purpose" ≫= as_str); simpl; [|reflexivity].
    destruct (getitem v "@displayName"); simpl; [|reflexivity].
    rewrite H. reflexivity.
  - destruct (getitem v "ns0:Purpose" ≫= as_str); simpl; [|reflexivity].
    destruct (getitem v "@displayName"); simpl; [|reflexivity].
    destruct (getitem v "ns0:RevisionDate"); simpl; [|reflexivity].
    rewrite H. reflexivity.
Qed.

Lemma vsac_to_vsac_missing_key_witness :
  vsac_to_vsac "2021/03/04"
    (PDict [("@displayName", PStr "Asthma SCT");
            ("ns0:RevisionDate", PStr "2021-02-20");
            ("ns0:Purpose", PStr (Purpose Examples.labels_in_first_clause))])
  = None.
Proof.
  apply (vsac_to_vsac_missing_key "2021/03/04"). do 3 right. reflexivity.
Defined.

(** ** [get_csv]: more *)

(** The table of a list of records is the tables of its parts, one after
    the other; it is there when both are. *)
Theorem get_csv_rows_app (now code_delimiter : string) (l1 l2 : list pyval) :
  get_csv_rows now code_delimiter (l1 ++ l2) =
    rows1 ← get_csv_rows now code_delimiter l1;
    rows2 ← get_csv_rows now code_delimiter l2;
    Some (rows1 ++ rows2).
Proof.
  induction l1 as [|x l1 IH].
  - change (get_csv_rows now code_delimiter []) with (Some (@nil pyval)).
    simpl. by destruct (get_csv_rows now code_delimiter l2).
  - change ((x :: l1) ++ l2) with (x :: (l1 ++ l2)).
    rewrite !get_csv_rows_cons, IH.
    destruct (rows_of_value_set now code_delimiter x) as [rows|]; simpl; [|done].
    destruct (get_csv_rows now code_delimiter l1) as [rows1|]; simpl; [|done].
    destruct (get_csv_rows now code_delimiter l2) as [rows2|]; simpl; [|done].
    by rewrite app_assoc.
Qed.

(** The whole table.  For a list of records that each have no concept or a
    purpose text with a fourth clause, the rows are the tables of the
    records one after the other, and the table of a record is the one said
    directly: a row for each code system in order of first appearance, with
    the name, the identifier, the codes of the code system joined by the
    code delimiter passed, the fourth clause as limitations, the printed
    list of the first two clauses as intention, and a provenance with all
    the code systems of the record joined by commas and, as [Accessed], the
    reading of the clock made for this row, without its last seven
    characters. *)
Theorem get_csv_rows_table
    (clock : nat → string) (k : nat) (code_delimiter : string)
    (vs : list value_set) :
  Forall (λ v, ConceptList v = [] ∨
               ∃ purposes, split (Purpose v) ")," = Some purposes ∧
                           (4 ≤ length purposes)%nat) vs →
  get_csv_rows_at clock k code_delimiter (map to_py vs) =
    Some (tables_at clock k code_delimiter vs).
Proof.
  intros Hall. apply get_csv_rows_at_tables.
  eapply Forall_impl; [exact Hall|].
  intros v [Hnil | (purposes & Hsplit & Hlen)]; [by left | right].
  by injection Hsplit as <-.
Qed.

Lemma get_csv_rows_table_witness :
  get_csv_rows_at Examples.clock 0 ";"
    (map to_py [Examples.asthma_mixed; Examples.no_concepts;
                Examples.asthma_sct]) =
    Some (tables_at Examples.clock 0 ";"
            [Examples.asthma_mixed; Examples.no_concepts;
             Examples.asthma_sct]).
Proof.
  apply (get_csv_rows_table Examples.clock 0 ";"
           [Examples.asthma_mixed; Examples.no_concepts;
            Examples.asthma_sct]).
  constructor; [|constructor; [|constructor; [|constructor]]].
  - right.
    exists ["(Clinical Focus: asthma"; "(Inclusion Criteria: snomed";
            "(Data Element Scope: condition"; "(Exclusion Criteria: none)"].
    split; [reflexivity | simpl; lia].
  - by left.
  - right.
    exists ["(Clinical Focus: asthma"; "(Inclusion Criteria: snomed";
            "(Data Element Scope: condition"; "(Exclusion Criteria: none)"].
    split; [reflexivity | simpl; lia].
Defined.

Lemma dict_set_absent {V} (d : dict V) (k : string) (v : V) :
  dict_has d k = false → dict_set d k v = d ++ [(k, v)].
Proof.
  unfold dict_has. induction d as [|[k' v'] d IH]; simpl; [done|].
  destruct (String.eqb k' k); simpl; [discriminate|].
  intros H. by rewrite IH.
Qed.

Lemma dict_set_append_codes (d : dict (list string)) (k c : string)
    (codes : list string) :
  dict_get d k = Some codes →
  concat (map snd (dict_set d k (codes ++ [c]))) ≡ₚ concat (map snd d) ++ [c].
Proof.
  induction d as [|[k' v'] d IH]; simpl; [discriminate|].
  destruct (String.eqb k' k); simpl.
  - intros [= ->]. rewrite <- !app_assoc. apply Permutation_app_head.
    apply Permutation_app_comm.
  - intros Hget. rewrite (IH Hget). by rewrite app_assoc.
Qed.

Lemma add_code_codes (d : dict (list string)) (cs c : string) :
  concat (map snd (add_code d cs c)) ≡ₚ concat (map snd d) ++ [c].
Proof.
  unfold add_code. destruct (dict_has d cs) eqn:E.
  - destruct (dict_get_present d cs E) as [l Hl]. rewrite Hl.
    by apply dict_set_append_codes.
  - rewrite dict_get_set_eq.
    rewrite (dict_set_append_codes (dict_set d cs []) cs c [] (dict_get_set_eq _ _ _)).
    rewrite (dict_set_absent d cs [] E), map_app, concat_app. simpl.
    by rewrite app_nil_r.
Qed.

(** The loop over the concepts loses no code and invents none: the codes
    held by [code_system_codes], all code systems together, are the codes
    of the concept entries, repetitions included. *)
Theorem collect_codes_keeps_every_code (cl : list concept) :
  ∃ code_system_codes,
    collect_codes [] (map concept_to_py cl) = Some code_system_codes ∧
    concat (map snd code_system_codes) ≡ₚ map code cl.
Proof.
  exists (grouped cl). split; [apply collect_codes_to_py|].
  unfold grouped. induction cl as [|c cl IH] using rev_ind; [done|].
  rewrite fold_left_app. simpl. rewrite add_code_codes, IH.
  by rewrite map_app.
Qed.

(** A record whose [ns0:Concept] is one concept dictionary instead of a list
    of them (or any non-empty dictionary) makes [get_csv] raise: the loop
    visits the keys, and a key is a string, not a concept. *)
Theorem get_csv_single_concept_dict_raises
    (now code_delimiter : string) (value_set concept_list : pyval)
    (key : string) (value : pyval) (entries : list (string * pyval))
    (before after : list pyval) :
  getitem value_set "ns0:ConceptList" = Some concept_list →
  getitem concept_list "ns0:Concept" = Some (PDict ((key, value) :: entries)) →
  get_csv_rows now code_delimiter (before ++ value_set :: after) = None.
Proof.
  intros Hlist Hconcept.
  assert (Hrows : rows_of_value_set now code_delimiter value_set = None).
  { rewrite rows_of_value_set_eq.
    destruct (getitem value_set "@displayName"); simpl; [|done].
    destruct (getitem value_set "ns0:Purpose" ≫= as_str); simpl; [|done].
    by rewrite Hlist; simpl; rewrite Hconcept. }
  induction before as [|x before IH].
  - change ([] ++ value_set :: after) with (value_set :: after).
    by rewrite get_csv_rows_cons, Hrows.
  - change ((x :: before) ++ value_set :: after)
      with (x :: (before ++ value_set :: after)).
    rewrite get_csv_rows_cons, IH.
    by destruct (rows_of_value_set now code_delimiter x).
Qed.

Lemma get_csv_single_concept_dict_raises_witness :
  get_csv_rows "2021-03-04 10:11:12.123456" "|"
    ([to_py Examples.asthma_sct] ++
     PDict [("@displayName", PStr "One");
            ("ns0:Purpose", PStr (Purpose Examples.asthma_sct));
            ("ns0:ConceptList",
               PDict [("ns0:Concept",
                       PDict [("@code", PStr "123");
                              ("@codeSystemName", PStr "SNOMEDCT")])])]
     :: []) = None.
Proof.
  apply (get_csv_single_concept_dict_raises _ _ _
           (PDict [("ns0:Concept",
                    PDict [("@code", PStr "123");
                           ("@codeSystemName", PStr "SNOMEDCT")])])
           "@code" (PStr "123") [("@codeSystemName", PStr "SNOMEDCT")]);
    reflexivity.
Defined.

Lemma grouped_nil_iff (cl : list concept) : grouped cl = [] ↔ cl = [].
Proof.
  split; [|by intros ->].
  destruct (grouped_spec cl) as (_ & Hkeys & _). intros Hnil.
  destruct cl as [|c cl]; [done|]. exfalso.
  specialize (Hkeys (codeSystemName c)). rewrite Hnil in Hkeys.
  cut (codeSystemName c ∈ @nil string); [by inversion 1|].
  apply Hkeys. simpl. apply elem_of_cons. by left.
Qed.

(** When the rows of a record fail: exactly when it has a concept and its
    purpose text has fewer than four clauses. *)
Theorem get_csv_rows_fail_iff (now code_delimiter : string) (v : value_set) :
  get_csv_rows now code_delimiter [to_py v] = None ↔
  ConceptList v ≠ [] ∧ (length (split_go ")," 0 (Purpose v)) < 4)%nat.
Proof.
  rewrite get_csv_rows_single, rows_of_to_py.
  set (purposes := split_go ")," 0 (Purpose v)).
  set (d := grouped (ConceptList v)).
  destruct (purposes !! 3%nat) as [lim|] eqn:Hlim.
  - pose proof (lookup_lt_Some _ _ _ Hlim) as Hlen.
    split; [|intros [_ ?]; lia].
    intros Hnone. exfalso.
    assert (Hsome : mapM (make_row now code_delimiter (to_py v)
                            (PStr (displayName v)) purposes d) d
                    = Some (record_table now code_delimiter v purposes lim)).
    { pose proof (rows_of_to_py_table now code_delimiter v lim Hlim) as H.
      by rewrite rows_of_to_py in H. }
    congruence.
  - apply lookup_ge_None in Hlim.
    destruct d as [|[cs codes] d'] eqn:Hd.
    + apply grouped_nil_iff in Hd. split; [done|]. by intros [? _].
    + split.
      2: { intros _. cbn [mapM]. rewrite make_row_to_py.
           by rewrite (proj2 (lookup_ge_None purposes 3) Hlim). }
      intros _. split; [|lia]. intros Hnil.
      apply grouped_nil_iff in Hnil. unfold d in Hd. congruence.
Qed.

(** ** [vsac_to_fhir]: the store *)

Lemma getitem_v_run (x : val) (k : string) (h : store) :
  getitem_v x k h = (read_item h x k, h).
Proof.
  unfold read_item, getitem_v. destruct x as [p|l]; [done|].
  unfold bind, get. by destruct (h !! l) as [[e|items]|].
Qed.

Lemma index_v_run (x : val) (i : nat) (h : store) :
  index_v x i h = (read_index h x i, h).
Proof.
  unfold read_index, index_v. destruct x as [p|l]; [done|].
  unfold bind, get. by destruct (h !! l) as [[e|items]|].
Qed.

Lemma setitem_v_Some (x : val) (k : string) (v : val) (h h' : store) (u : unit) :
  setitem_v x k v h = (Some u, h') →
  ∃ l e, x = Ref l ∧ h !! l = Some (ODict e) ∧
         h' = <[l := ODict (dict_set e k v)]> h.
Proof.
  unfold setitem_v. destruct x as [p|l]; [discriminate|].
  unfold bind, get, modify, raise.
  destruct (h !! l) as [[e|items]|] eqn:Hl; try discriminate.
  intros [= _ <-]. eauto.
Qed.

Lemma alloc_run (o : obj) (h : store) :
  alloc o h = (Some (Ref (length h)), h ++ [o]).
Proof. reflexivity. Qed.

Lemma read_item_Ref (h : list obj) (l : loc) (k : string) :
  read_item h (Ref l) k =
    match h !! l with Some (ODict e) => dict_get e k | _ => None end.
Proof.
  unfold read_item, getitem_v, bind, get, store. cbn [fst].
  destruct (h !! l) as [[e|items]|]; reflexivity.
Qed.

Lemma read_index_Ref (h : list obj) (l : loc) (i : nat) :
  read_index h (Ref l) i =
    match h !! l with Some (OList items) => items !! i | _ => None end.
Proof.
  unfold read_index, index_v, bind, get, store. cbn [fst].
  destruct (h !! l) as [[e|items]|]; reflexivity.
Qed.

Section StoreFrames.
Context (h : list obj) (l : loc) (e : dict val).
Hypothesis Hl : h !! l = Some (ODict e).

Lemma read_item_insert_ne (x : val) (k k' : string) (v : val) :
  k ≠ k' →
  read_item (<[l := ODict (dict_set e k v)]> h) x k' = read_item h x k'.
Proof.
  intros Hne. destruct x as [p|l']; [done|]. rewrite !read_item_Ref.
  destruct (decide (l' = l)) as [->|Hll].
  - rewrite list_lookup_insert_eq by (by eapply lookup_lt_Some).
    rewrite Hl. by rewrite dict_get_set_ne.
  - by rewrite list_lookup_insert_ne.
Qed.

Lemma read_item_insert_eq (k : string) (v : val) :
  read_item (<[l := ODict (dict_set e k v)]> h) (Ref l) k = Some v.
Proof.
  rewrite read_item_Ref.
  rewrite list_lookup_insert_eq by (by eapply lookup_lt_Some).
  apply dict_get_set_eq.
Qed.

Lemma read_index_insert (x : val) (i : nat) (e' : dict val) :
  read_index (<[l := ODict e']> h) x i = read_index h x i.
Proof.
  destruct x as [p|l']; [done|]. rewrite !read_index_Ref.
  destruct (decide (l' = l)) as [->|Hll].
  - rewrite list_lookup_insert_eq by (by eapply lookup_lt_Some).
    by rewrite Hl.
  - by rewrite list_lookup_insert_ne.
Qed.
End StoreFrames.

Lemma read_item_alloc (h : list obj) (o : obj) (x : val) (k : string) (a : val) :
  read_item h x k = Some a → read_item (h ++ [o]) x k = Some a.
Proof.
  destruct x as [p|l]; [done|]. rewrite !read_item_Ref.
  destruct (h !! l) as [o'|] eqn:Hl; [|done].
  by rewrite (lookup_app_l_Some _ _ _ _ Hl).
Qed.

Lemma read_index_alloc (h : list obj) (o : obj) (x : val) (i : nat) (a : val) :
  read_index h x i = Some a → read_index (h ++ [o]) x i = Some a.
Proof.
  destruct x as [p|l]; [done|]. rewrite !read_index_Ref.
  destruct (h !! l) as [o'|] eqn:Hl; [|done].
  by rewrite (lookup_app_l_Some _ _ _ _ Hl).
Qed.

Lemma as_str_v_Some (x : val) (h h' : store) (s : string) :
  as_str_v x h = (Some s, h') → x = Imm (PStr s) ∧ h' = h.
Proof.
  unfold as_str_v. destruct x as [[| | s'| |]|]; try discriminate.
  by intros [= -> ->].
Qed.

(** What a successful call has done: the outer dictionary it returns, and
    what the shared objects hold in the store it leaves. *)
Lemma vsac_to_fhir_effect
    (T : dict val) (value_set : pyval) (h h' : store) (d : dict val) :
  vsac_to_fhir T value_set h = (Some d, h') →
  ∃ (id : Z) (id0 name status description system version : pyval)
    (text compose include include0 : val) (div_fmt div url_fmt url : string),
    (first_of value_set "valueSet.id" = Some id0 ∧ int id0 = Some id ∧
     first_of value_set "valueSet.name" = Some name ∧
     first_of value_set "valueSet.status" = Some status ∧
     first_of value_set "valueSet.description" = Some description ∧
     first_of value_set "valueSet.codeSystem" = Some system ∧
     first_of value_set "valueSet.codeSystemVersion" = Some version) ∧
    (dict_get T "url" = Some (Imm (PStr url_fmt)) ∧
     format url_fmt (PStr (str id0)) = Some url ∧
     d = dict_set (dict_set (dict_set (dict_set (dict_set (dict_set T
           "id" (Imm (PInt id))) "url" (Imm (PStr url))) "name" (Imm name))
           "title" (Imm name)) "status" (Imm status))
           "description" (Imm description)) ∧
    (dict_get T "text" = Some text ∧
     read_item h text "div" = Some (Imm (PStr div_fmt)) ∧
     format div_fmt description = Some div ∧
     read_item h' text "div" = Some (Imm (PStr div))) ∧
    (dict_get T "compose" = Some compose ∧
     read_item h' compose "include" = Some include ∧
     read_index h' include 0 = Some include0 ∧
     read_item h' include0 "system" = Some (Imm system) ∧
     read_item h' include0 "version" = Some (Imm version) ∧
     read_item h' include0 "concept" = Some (Ref (length h)) ∧
     h' !! length h = Some (OList []) ∧
     length h' = S (length h)).
Proof.
  unfold vsac_to_fhir. intros H.
  repeat match type of H with
         | bind _ _ _ = (Some _, _) =>
             let H' := fresh "Hstep" in
             apply bind_Some in H as (? & ? & H' & H)
         end.
  repeat match goal with
         | Hs : lift _ _ = (Some _, _) |- _ => apply lift_Some in Hs as [Hs ->]
         | Hs : getitem_v _ _ _ = (Some _, _) |- _ =>
             rewrite getitem_v_run in Hs; injection Hs as Hs <-
         | Hs : index_v _ _ _ = (Some _, _) |- _ =>
             rewrite index_v_run in Hs; injection Hs as Hs <-
         | Hs : as_str_v _ _ = (Some _, _) |- _ =>
             apply as_str_v_Some in Hs as [-> ->]
         | Hs : alloc _ _ = (Some _, _) |- _ =>
             rewrite alloc_run in Hs; injection Hs as <- <-
         | Hs : ret _ _ = (Some _, _) |- _ => injection Hs as <- <-
         | Hs : dict_get (dict_set _ _ _) _ = Some _ |- _ =>
             rewrite dict_get_set_ne in Hs by done
         end.
  repeat match goal with
         | H1 : ?a = Some ?x, H2 : ?a = Some ?y |- _ =>
             assert (y = x) as -> by congruence; clear H2
         end.
  repeat match goal with
         | Hs : setitem_v _ _ _ _ = (Some _, _) |- _ =>
             apply setitem_v_Some in Hs as (? & ? & -> & ? & ->)
         end.
  unfold store in *.
  match goal with
  | Ht : dict_get T "text" = Some (Ref ?lt), Hlt : h !! ?lt = Some (ODict ?et)
    |- _ => rename lt into l_text; rename et into e_text; rename Hlt into Htext
  end.
  set (h1 := <[l_text := _]> h) in *.
  match goal with
  | Hi : read_index h1 _ 0 = Some (Ref ?l0), Hl0 : h1 !! ?l0 = Some (ODict ?e0)
    |- _ => rename l0 into l_inc; rename e0 into e_inc; rename Hl0 into Hinc1;
            rename Hi into Hindex1
  end.
  match goal with
  | Hi : read_item h1 _ "include" = Some _ |- _ => rename Hi into Hitem1
  end.
  rewrite (read_item_insert_ne h1 l_inc e_inc Hinc1) in Hstep22 by done.
  rewrite Hitem1 in Hstep22. injection Hstep22 as <-.
  rewrite (read_index_insert h1 l_inc e_inc Hinc1) in Hstep23.
  rewrite Hindex1 in Hstep23. injection Hstep23 as <-.
  set (h2 := <[l_inc := _]> h1) in *.
  assert (Hinc2 : h2 !! l_inc =
                  Some (ODict (dict_set e_inc "system" (Imm x31)))).
  { apply list_lookup_insert_eq. by eapply lookup_lt_Some. }
  rewrite Hinc2 in H0. injection H0 as <-.
  set (h3 := <[l_inc := _]> h2) in *.
  assert (Hinc3 : h3 !! l_inc =
            Some (ODict (dict_set (dict_set e_inc "system" (Imm x31))
                           "version" (Imm x41)))).
  { apply list_lookup_insert_eq. by eapply lookup_lt_Some. }
  assert (Hitem3 : read_item h3 x33 "include" = Some x35).
  { unfold h3. rewrite (read_item_insert_ne h2 l_inc _ Hinc2) by done.
    unfold h2. by rewrite (read_item_insert_ne h1 l_inc _ Hinc1). }
  assert (Hindex3 : read_index h3 x35 0 = Some (Ref l_inc)).
  { unfold h3. rewrite (read_index_insert h2 l_inc _ Hinc2).
    unfold h2. by rewrite (read_index_insert h1 l_inc _ Hinc1). }
  rewrite (read_item_alloc _ _ _ _ _ Hitem3) in Hstep27. injection Hstep27 as <-.
  rewrite (read_index_alloc _ _ _ _ _ Hindex3) in Hstep28. injection Hstep28 as <-.
  rewrite (lookup_app_l_Some _ _ _ _ Hinc3) in H. injection H as <-.
  set (h4 := h3 ++ [OList []]) in *.
  assert (Hinc4 : h4 !! l_inc =
            Some (ODict (dict_set (dict_set e_inc "system" (Imm x31))
                           "version" (Imm x41)))).
  { by apply lookup_app_l_Some. }
  assert (Hlen3 : length h3 = length h).
  { unfold h3, h2, h1. by rewrite !length_insert. }
  assert (Hdiv1 : read_item h1 (Ref l_text) "div" = Some (Imm (PStr x9))).
  { apply (read_item_insert_eq h l_text e_text Htext). }
  assert (Hdiv3 : read_item h3 (Ref l_text) "div" = Some (Imm (PStr x9))).
  { unfold h3. rewrite (read_item_insert_ne h2 l_inc _ Hinc2) by done.
    unfold h2. by rewrite (read_item_insert_ne h1 l_inc _ Hinc1). }
  exists x, x19, x23, x27, x7, x31, x41, (Ref l_text), x33, x35, (Ref l_inc),
         x5, x9, x17, x21.
  split.
  { repeat split; try assumption.
    rewrite Hstep9 in Hstep. exact Hstep. }
  split; [by repeat split|].
  split.
  { repeat split; try assumption.
    rewrite (read_item_insert_ne h4 l_inc _ Hinc4) by done.
    by apply read_item_alloc. }
  split; [assumption|].
  split.
  { rewrite (read_item_insert_ne h4 l_inc _ Hinc4) by done.
    by apply read_item_alloc. }
  split.
  { rewrite (read_index_insert h4 l_inc _ Hinc4).
    by apply read_index_alloc. }
  assert (Hfinal : ∀ k,
    read_item (<[l_inc := ODict (dict_set (dict_set (dict_set e_inc
                   "system" (Imm x31)) "version" (Imm x41))
                   "concept" (Ref (length h3)))]> h4) (Ref l_inc) k =
    dict_get (dict_set (dict_set (dict_set e_inc
                   "system" (Imm x31)) "version" (Imm x41))
                   "concept" (Ref (length h3))) k).
  { intros k. rewrite read_item_Ref.
    rewrite list_lookup_insert_eq by (by eapply lookup_lt_Some).
    reflexivity. }
  rewrite !Hfinal.
  split; [by rewrite 2!dict_get_set_ne, dict_get_set_eq by done|].
  split; [by rewrite dict_get_set_ne, dict_get_set_eq by done|].
  split; [by rewrite dict_get_set_eq, Hlen3|].
  split.
  - rewrite list_lookup_insert_ne.
    + unfold h4. rewrite <- Hlen3. by rewrite lookup_app_r, Nat.sub_diag.
    + apply lookup_lt_Some in Hinc3. lia.
  - rewrite length_insert. unfold h4. rewrite length_app, Hlen3. simpl. lia.
Qed.

(** The outer dictionary of a successful call: the six entries the function
    assigns hold the record's values ([title] is the name again), and every
    other key holds what the template holds, the nested objects included. *)
Theorem vsac_to_fhir_result_entries
    (T : dict val) (value_set : pyval) (h h' : store) (d : dict val) :
  vsac_to_fhir T value_set h = (Some d, h') →
  ∃ (id : Z) (id0 name status description : pyval) (url_fmt url : string),
    first_of value_set "valueSet.id" = Some id0 ∧ int id0 = Some id ∧
    first_of value_set "valueSet.name" = Some name ∧
    first_of value_set "valueSet.status" = Some status ∧
    first_of value_set "valueSet.description" = Some description ∧
    dict_get T "url" = Some (Imm (PStr url_fmt)) ∧
    format url_fmt (PStr (str id0)) = Some url ∧
    dict_get d "id" = Some (Imm (PInt id)) ∧
    dict_get d "url" = Some (Imm (PStr url)) ∧
    dict_get d "name" = Some (Imm name) ∧
    dict_get d "title" = Some (Imm name) ∧
    dict_get d "status" = Some (Imm status) ∧
    dict_get d "description" = Some (Imm description) ∧
    ∀ k, k ∉ ["id"; "url"; "name"; "title"; "status"; "description"] →
         dict_get d k = dict_get T k.
Proof.
  intros H. apply vsac_to_fhir_effect in H
    as (id & id0 & name & status & description & system & version & text &
        compose & include & include0 & div_fmt & div & url_fmt & url &
        (Hid0 & Hid & Hname & Hstatus & Hdesc & _) & (Hurl & Hfmt & ->) & _).
  exists id, id0, name, status, description, url_fmt, url.
  repeat (split; [assumption|]).
  split; [by rewrite 5!dict_get_set_ne, dict_get_set_eq by done|].
  split; [by rewrite 4!dict_get_set_ne, dict_get_set_eq by done|].
  split; [by rewrite 3!dict_get_set_ne, dict_get_set_eq by done|].
  split; [by rewrite 2!dict_get_set_ne, dict_get_set_eq by done|].
  split; [by rewrite dict_get_set_ne, dict_get_set_eq by done|].
  split; [by rewrite dict_get_set_eq|].
  intros k Hk.
  rewrite !dict_get_set_ne; [done|..];
    intros <-; apply Hk; repeat constructor.
Qed.

Lemma vsac_to_fhir_result_entries_witness :
  ∃ (id : Z) (id0 name status description : pyval) (url_fmt url : string),
    first_of Examples.record_a "valueSet.id" = Some id0 ∧ int id0 = Some id ∧
    first_of Examples.record_a "valueSet.name" = Some name ∧
    first_of Examples.record_a "valueSet.status" = Some status ∧
    first_of Examples.record_a "valueSet.description" = Some description ∧
    dict_get (Fhir.FHIR_JSON_TEMPLATE Examples.url_fmt) "url"
      = Some (Imm (PStr url_fmt)) ∧
    format url_fmt (PStr (str id0)) = Some url.
Proof.
  destruct (vsac_to_fhir_result_entries
              (Fhir.FHIR_JSON_TEMPLATE Examples.url_fmt) Examples.record_a
              (template_store Examples.div_fmt)
              (snd (vsac_to_fhir (Fhir.FHIR_JSON_TEMPLATE Examples.url_fmt)
                      Examples.record_a (template_store Examples.div_fmt)))
              (default [] (fst (vsac_to_fhir (Fhir.FHIR_JSON_TEMPLATE Examples.url_fmt)
                      Examples.record_a (template_store Examples.div_fmt))))
              eq_refl)
    as (id & id0 & name & status & description & url_fmt & url &
        H1 & H2 & H3 & H4 & H5 & H6 & H7 & _).
  exists id, id0, name, status, description, url_fmt, url. auto 10.
Defined.

(** Every result shares the template's [compose] object: after a later
    conversion, the code system and the version read through an earlier
    result are those of the later record, and its concept list is the later
    result's. *)
Theorem vsac_to_fhir_overwrites_earlier_result
    (T : dict val) (value_set_a value_set_b : pyval)
    (h h_a h_ab : store) (d_a d_b : dict val) :
  vsac_to_fhir T value_set_a h = (Some d_a, h_a) →
  vsac_to_fhir T value_set_b h_a = (Some d_b, h_ab) →
  ∃ system version,
    first_of value_set_b "valueSet.codeSystem" = Some system ∧
    first_of value_set_b "valueSet.codeSystemVersion" = Some version ∧
    read_include0 h_ab d_a "system" = Some (Imm system) ∧
    read_include0 h_ab d_a "version" = Some (Imm version) ∧
    read_include0 h_ab d_a "concept" = Some (Ref (length h_a)) ∧
    read_include0 h_ab d_b "concept" = Some (Ref (length h_a)).
Proof.
  intros Ha Hb.
  destruct (vsac_to_fhir_shares_template _ _ _ _ _ Ha) as [_ Hca].
  destruct (vsac_to_fhir_shares_template _ _ _ _ _ Hb) as [_ Hcb].
  apply vsac_to_fhir_effect in Hb
    as (id & id0 & name & status & description & system & version & text &
        compose & include & include0 & div_fmt & div & url_fmt & url &
        (_ & _ & _ & _ & _ & Hsys & Hver) & _ & _ &
        (Hcompose & Hinclude & Hindex & Hs & Hv & Hc & _)).
  exists system, version. split; [done|]. split; [done|].
  unfold read_include0. rewrite Hca, Hcb, Hcompose. simpl.
  rewrite Hinclude. simpl. rewrite Hindex. simpl. by rewrite Hs, Hv, Hc.
Qed.

Lemma vsac_to_fhir_overwrites_earlier_result_witness :
  let T := Fhir.FHIR_JSON_TEMPLATE Examples.url_fmt in
  let h := template_store Examples.div_fmt in
  let r_a := vsac_to_fhir T Examples.record_a h in
  let r_b := vsac_to_fhir T Examples.record_b (snd r_a) in
  ∃ system version,
    first_of Examples.record_b "valueSet.codeSystem" = Some system ∧
    first_of Examples.record_b "valueSet.codeSystemVersion" = Some version ∧
    read_include0 (snd r_b) (default [] (fst r_a)) "system" = Some (Imm system) ∧
    read_include0 (snd r_b) (default [] (fst r_a)) "version" = Some (Imm version) ∧
    read_include0 (snd r_b) (default [] (fst r_a)) "concept"
      = Some (Ref (length (snd r_a))) ∧
    read_include0 (snd r_b) (default [] (fst r_b)) "concept"
      = Some (Ref (length (snd r_a))).
Proof.
  intros T h r_a r_b.
  apply (vsac_to_fhir_overwrites_earlier_result T Examples.record_a
           Examples.record_b h (snd r_a) (snd r_b)
           (default [] (fst r_a)) (default [] (fst r_b)));
    reflexivity.
Defined.

(** ** [vsac_to_fhir]: the text of [text.div] *)

Lemma format_go_plain (seen : numbering) (arg : string) (c : ascii) (r : string) :
  c ≠ "{"%char → c ≠ "}"%char →
  format_go seen false arg (String c r) = String c <$> format_go seen false arg r.
Proof.
  intros Hopen Hclose. cbn [format_go].
  apply Ascii.eqb_neq in Hopen, Hclose. by rewrite Hopen, Hclose.
Qed.

Lemma brace_free_cons (c : ascii) (s : string) :
  brace_free (String c s) = true →
  c ≠ "{"%char ∧ c ≠ "}"%char ∧ brace_free s = true.
Proof.
  unfold brace_free. cbn [contains_char]. intros H.
  apply andb_true_iff in H as [H1 H2].
  apply negb_true_iff, orb_false_iff in H1 as [H1 H1'].
  apply negb_true_iff, orb_false_iff in H2 as [H2 H2'].
  split; [by intros ->|]. split; [by intros ->|].
  by rewrite H1', H2'.
Qed.

Lemma brace_free_app (a b : string) :
  brace_free a = true → brace_free b = true → brace_free (a +:+ b) = true.
Proof.
  unfold brace_free. rewrite !contains_char_app. intros Ha Hb.
  apply andb_true_iff in Ha as [Ha1 Ha2]. apply andb_true_iff in Hb as [Hb1 Hb2].
  apply negb_true_iff in Ha1, Ha2, Hb1, Hb2.
  by rewrite Ha1, Ha2, Hb1, Hb2.
Qed.

(** A text without braces is its own [format]. *)
Lemma format_go_brace_free (seen : numbering) (arg s : string) :
  brace_free s = true → format_go seen false arg s = Some s.
Proof.
  induction s as [|c s IH]; [done|]. intros H.
  apply brace_free_cons in H as (Hopen & Hclose & Hs).
  by rewrite format_go_plain, (IH Hs).
Qed.

(** A text with one field between two parts without braces. *)
Lemma format_go_one_field (arg before after : string) :
  brace_free before = true → brace_free after = true →
  format_go Unset false arg (before +:+ "{}" +:+ after) =
    Some (before +:+ arg +:+ after).
Proof.
  intros Hb Ha. induction before as [|c before IH].
  - change (EmptyString +:+ "{}" +:+ after)
      with (String "{" (String "}" after)).
    change (format_go Unset false arg (String "{" (String "}" after)))
      with (String.append arg <$> format_go Automatic false arg after).
    by rewrite (format_go_brace_free Automatic arg after Ha).
  - apply brace_free_cons in Hb as (Hopen & Hclose & Hb).
    change (String c before +:+ "{}" +:+ after)
      with (String c (before +:+ "{}" +:+ after)).
    by rewrite format_go_plain, (IH Hb).
Qed.

Lemma read_text_div_plain_kept
    (T : dict val) (value_set : pyval) (h h' : store) (d : dict val)
    (div : string) :
  vsac_to_fhir T value_set h = (Some d, h') →
  read_text_div h T = Some (Imm (PStr div)) →
  brace_free div = true →
  read_text_div h' d = Some (Imm (PStr div)).
Proof.
  intros Hrun Hdiv Hfree.
  destruct (vsac_to_fhir_shares_template _ _ _ _ _ Hrun) as [Htext _].
  apply vsac_to_fhir_effect in Hrun
    as (id & id0 & name & status & description & system & version & text &
        compose & include & include0 & div_fmt & div' & url_fmt & url &
        _ & _ & (HT & Hold & Hfmt & Hnew) & _).
  unfold read_text_div in *. rewrite Htext, HT in *. simpl in *.
  rewrite Hold in Hdiv. injection Hdiv as ->.
  unfold format in Hfmt. rewrite (format_go_brace_free _ _ _ Hfree) in Hfmt.
  injection Hfmt as <-. exact Hnew.
Qed.

(** Once the text of [text.div] has no brace, a conversion leaves it as it
    is: the description of the record converted does not get in. *)
Theorem vsac_to_fhir_div_sticks
    (T : dict val) (value_set : pyval) (h h' : store) (d : dict val)
    (div : string) :
  vsac_to_fhir T value_set h = (Some d, h') →
  read_text_div h T = Some (Imm (PStr div)) →
  brace_free div = true →
  read_text_div h' d = Some (Imm (PStr div)).
Proof. apply read_text_div_plain_kept. Qed.

Lemma vsac_to_fhir_div_sticks_witness :
  let T := Fhir.FHIR_JSON_TEMPLATE Examples.url_fmt in
  let r_a := vsac_to_fhir T Examples.record_a (template_store Examples.div_fmt) in
  let r_b := vsac_to_fhir T Examples.record_b (snd r_a) in
  read_text_div (snd r_b) (default [] (fst r_b))
    = Some (Imm (PStr "<div>asthma conditions</div>")).
Proof.
  intros T r_a r_b.
  apply (vsac_to_fhir_div_sticks T Examples.record_b (snd r_a) (snd r_b)
           (default [] (fst r_b)) "<div>asthma conditions</div>");
    reflexivity.
Defined.

(** With a template whose [text.div] has one field, the first conversion
    puts its description there, and that text is what every result shows
    from then on: the second result carries the first description, not its
    own. *)
Theorem vsac_to_fhir_first_description_stays
    (T : dict val) (value_set_a value_set_b description_a : pyval)
    (h h_a h_ab : store) (d_a d_b : dict val) (before after : string) :
  read_text_div h T = Some (Imm (PStr (before +:+ "{}" +:+ after))) →
  brace_free before = true → brace_free after = true →
  first_of value_set_a "valueSet.description" = Some description_a →
  brace_free (str description_a) = true →
  vsac_to_fhir T value_set_a h = (Some d_a, h_a) →
  vsac_to_fhir T value_set_b h_a = (Some d_b, h_ab) →
  read_text_div h_a d_a
    = Some (Imm (PStr (before +:+ str description_a +:+ after))) ∧
  read_text_div h_ab d_b
    = Some (Imm (PStr (before +:+ str description_a +:+ after))) ∧
  read_text_div h_ab d_a
    = Some (Imm (PStr (before +:+ str description_a +:+ after))).
Proof.
  intros Hdiv Hb Ha Hdesc Hfree Hrun_a Hrun_b.
  destruct (vsac_to_fhir_shares_template _ _ _ _ _ Hrun_a) as [Htext_a _].
  assert (Hfirst : read_text_div h_a d_a
            = Some (Imm (PStr (before +:+ str description_a +:+ after)))).
  { apply vsac_to_fhir_effect in Hrun_a
      as (id & id0 & name & status & description & system & version & text &
          compose & include & include0 & div_fmt & div' & url_fmt & url &
          (_ & _ & _ & _ & Hdesc' & _) & _ & (HT & Hold & Hfmt & Hnew) & _).
    unfold read_text_div in *. rewrite Htext_a, HT in *. simpl in *.
    rewrite Hold in Hdiv. injection Hdiv as ->.
    rewrite Hdesc in Hdesc'. injection Hdesc' as <-.
    unfold format in Hfmt. rewrite (format_go_one_field _ _ _ Hb Ha) in Hfmt.
    injection Hfmt as <-. exact Hnew. }
  assert (Hsecond : read_text_div h_ab d_b
            = Some (Imm (PStr (before +:+ str description_a +:+ after)))).
  { apply (read_text_div_plain_kept T value_set_b h_a h_ab d_b _ Hrun_b).
    - unfold read_text_div in *. by rewrite <- Htext_a.
    - by repeat apply brace_free_app. }
  split; [exact Hfirst|]. split; [exact Hsecond|].
  destruct (vsac_to_fhir_shares_template _ _ _ _ _ Hrun_b) as [Htext_b _].
  unfold read_text_div in *. by rewrite Htext_a, <- Htext_b.
Qed.

Lemma vsac_to_fhir_first_description_stays_witness :
  let T := Fhir.FHIR_JSON_TEMPLATE Examples.url_fmt in
  let r_a := vsac_to_fhir T Examples.record_a (template_store Examples.div_fmt) in
  let r_b := vsac_to_fhir T Examples.record_b (snd r_a) in
  read_text_div (snd r_a) (default [] (fst r_a))
    = Some (Imm (PStr ("<div>" +:+ "asthma conditions" +:+ "</div>"))) ∧
  read_text_div (snd r_b) (default [] (fst r_b))
    = Some (Imm (PStr ("<div>" +:+ "asthma conditions" +:+ "</div>"))) ∧
  read_text_div (snd r_b) (default [] (fst r_a))
    = Some (Imm (PStr ("<div>" +:+ "asthma conditions" +:+ "</div>"))).
Proof.
  intros T r_a r_b.
  apply (vsac_to_fhir_first_description_stays T Examples.record_a
           Examples.record_b (PStr "asthma conditions")
           (template_store Examples.div_fmt) (snd r_a) (snd r_b)
           (default [] (fst r_a)) (default [] (fst r_b)) "<div>" "</div>");
    reflexivity.
Defined.

(** ** [run]: what the second half writes *)

(** The second half of [run] never writes the cache file: whatever the
    artefact, the format and the names of the records, the files it writes
    end in [.tsv] or [.json]. *)
Theorem run_emit_keeps_cache
    (E : env) (artefact format field_delimiter code_delimiter : string)
    (json_indent : Z) (value_sets : pyval) (w : world) :
  dict_get
    (files (snd (run_emit E artefact format field_delimiter code_delimiter
                   json_indent value_sets w)))
    (pickle_file E)
  = dict_get (files w) (pickle_file E).
Proof. apply run_emit_cache_kept. Qed.

(** A run that fetched ends with the fetched list in the cache file,
    whatever the second half did, also when it raised. *)
Theorem run_leaves_fetched_cache
    (E : env) (artefact format field_delimiter code_delimiter : string)
    (json_indent : Z) (use_cache : bool) (w w1 : world) (value_sets : pyval) :
  use_cache = false ∨ dict_has (files w) (pickle_file E) = false →
  run_fetch E use_cache w = (Some value_sets, w1) →
  dict_get
    (files (snd (run E artefact format field_delimiter code_delimiter
                   json_indent use_cache w)))
    (pickle_file E)
  = Some (pickle_dumps E value_sets).
Proof.
  intros Hmiss Hfetch. unfold run.
  rewrite (bind_run _ _ _ _ _ Hfetch).
  rewrite (run_emit_cache_kept E artefact format field_delimiter
             code_delimiter json_indent value_sets w1).
  rewrite (run_fetch_miss E use_cache w Hmiss) in Hfetch.
  by apply fetch_writes_cache in Hfetch.
Qed.

Lemma run_leaves_fetched_cache_witness :
  dict_get
    (files (snd (run Examples.env "json" "omop" "," "|" 4 true Examples.cold)))
    "cache/value_sets.pickle"
  = Some (repr Examples.fetched).
Proof.
  apply (run_leaves_fetched_cache Examples.env "json" "omop" "," "|" 4 true
           Examples.cold (snd (run_fetch Examples.env true Examples.cold))
           Examples.fetched).
  - by right.
  - reflexivity.
Defined.

(** What a later run finds: after a run that fetched, whatever its second
    half did, a run with caching on takes its records from the cache file,
    and they are what [pickle.load] makes of what [pickle.dump] wrote for
    the fetched list. *)
Theorem cached_run_loads_the_dump
    (E : env) (artefact format field_delimiter code_delimiter : string)
    (json_indent : Z) (use_cache : bool) (w w1 : world) (value_sets : pyval) :
  use_cache = false ∨ dict_has (files w) (pickle_file E) = false →
  run_fetch E use_cache w = (Some value_sets, w1) →
  let w' := snd (run E artefact format field_delimiter code_delimiter
                   json_indent use_cache w) in
  run_fetch E true w' =
    (pickle_loads E (pickle_dumps E value_sets),
     log_event (LoadCache (pickle_file E)) w').
Proof.
  intros Hmiss Hfetch w'. apply run_fetch_hit. unfold w', run.
  rewrite (bind_run _ _ _ _ _ Hfetch).
  rewrite (run_emit_cache_kept E artefact format field_delimiter
             code_delimiter json_indent value_sets w1).
  rewrite (run_fetch_miss E use_cache w Hmiss) in Hfetch.
  by apply fetch_writes_cache in Hfetch.
Qed.

Lemma cached_run_loads_the_dump_witness :
  let w' := snd (run Examples.env "tsv_code" "omop" "," "|" 4 false
                   Examples.warm) in
  run_fetch Examples.env true w' =
    (Some Examples.fetched, log_event (LoadCache "cache/value_sets.pickle") w').
Proof.
  apply (cached_run_loads_the_dump Examples.env "tsv_code" "omop" "," "|" 4
           false Examples.warm
           (snd (run_fetch Examples.env false Examples.warm))
           Examples.fetched).
  - by left.
  - reflexivity.
Defined.

(** Without the cache directory a run that fetches raises when it is to
    open the cache file: the three calls to the collaborators are made, and
    neither the cache file nor the artefact is written. *)
Theorem run_without_cache_dir_raises
    (E : env) (artefact format field_delimiter code_delimiter : string)
    (json_indent : Z) (use_cache : bool) (w : world)
    (df tgt value_sets_dict response value_sets : pyval) (column : list pyval) :
  use_cache = false ∨ dict_has (files w) (pickle_file E) = false →
  get_sheets_data E = Some df →
  getitem df "OID" ≫= iterate = Some column →
  get_ticket_granting_ticket E = Some tgt →
  get_value_sets E (List.filter (λ x, negb (is_empty_str x)) column) tgt
    = Some value_sets_dict →
  getitem value_sets_dict "ns0:RetrieveMultipleValueSetsResponse" = Some response →
  getitem response "ns0:DescribedValueSet" = Some value_sets →
  can_open w (pickle_file E) = false →
  run E artefact format field_delimiter code_delimiter json_indent use_cache w =
    (None,
     log_event (FetchValueSets
                  (List.filter (λ x, negb (is_empty_str x)) column) tgt)
       (log_event RequestGrant (log_event ReadSheet w))).
Proof.
  intros Hmiss Hdf Hcol Htgt Hvs Hresp Hlist Hopen.
  unfold run. apply bind_raise. rewrite (run_fetch_miss E use_cache w Hmiss).
  unfold fetch, emit, bind, modify, lift, ret. simpl.
  rewrite Hdf, Hcol, Htgt, Hvs, Hresp, Hlist.
  by rewrite write_file_raise.
Qed.

Lemma run_without_cache_dir_raises_witness :
  run Examples.env "tsv_code" "omop" "," "|" 4 true Examples.bare =
    (None,
     log_event (FetchValueSets [PStr "2.16.840.1.113762.1.4.1047.20";
                                PStr "2.16.840.1.113762.1.4.1047.21"]
                               (PStr "TGT-42-cas"))
       (log_event RequestGrant (log_event ReadSheet Examples.bare))).
Proof.
  apply (run_without_cache_dir_raises Examples.env "tsv_code" "omop" "," "|" 4
           true Examples.bare
           (PDict [("OID", PList [PStr "2.16.840.1.113762.1.4.1047.20";
                                  PStr EmptyString;
                                  PStr "2.16.840.1.113762.1.4.1047.21"])])
           (PStr "TGT-42-cas")
           (PDict [("ns0:RetrieveMultipleValueSetsResponse",
                    PDict [("ns0:DescribedValueSet", Examples.fetched)])])
           (PDict [("ns0:DescribedValueSet", Examples.fetched)])
           Examples.fetched
           [PStr "2.16.840.1.113762.1.4.1047.20"; PStr EmptyString;
            PStr "2.16.840.1.113762.1.4.1047.21"]);
    first [by right | reflexivity].
Defined.

(** ** [get_csv] on the files *)


(** Without the output directory [get_csv] raises when it is to make the
    directory of the day, after the rows are built, and leaves everything
    as it was. *)
Theorem get_csv_needs_output_dir
    (E : env) (value_sets : pyval) (field_delimiter code_delimiter : string)
    (w : world) :
  let outdir := path_join (OUTPUT_DIR E) (today_dots E) in
  dict_has (files w) outdir = false →
  outdir ∉ dirs w →
  parent_exists w outdir = false →
  get_csv E value_sets field_delimiter code_delimiter w = (None, w).
Proof.
  intros outdir Hfile Hdir Hparent. unfold get_csv. fold outdir.
  unfold bind at 1, lift at 1.
  destruct (iterate value_sets) as [records|]; [|done].
  unfold bind at 1, lift at 1.
  destruct (Converters.get_csv_rows_at (now E) 0 code_delimiter records)
    as [rows|]; [|done].
  unfold bind at 1, path_exists, bind at 1, get, ret. unfold bind at 1.
  rewrite Hfile, (bool_decide_eq_false_2 _ Hdir). cbn [orb].
  by rewrite (mkdir_raise _ _ Hparent).
Qed.

Lemma get_csv_needs_output_dir_witness :
  get_csv Examples.env Examples.fetched "," "|" Examples.bare
    = (None, Examples.bare).
Proof.
  apply (get_csv_needs_output_dir Examples.env Examples.fetched "," "|"
           Examples.bare).
  - reflexivity.
  - vm_compute. by intros ?%elem_of_nil.
  - reflexivity.
Defined.

(** ** [run]: the JSON artefact with another format *)

Lemma for_each_convert_other (E : env) (format : string) (vs : list pyval)
    (w : world) :
  format ≠ "fhir" → format ≠ "omop" →
  for_each vs (convert E format) w =
    (Some (map (λ _, Plain (PDict [])) vs), w).
Proof.
  intros Hf Ho. apply String.eqb_neq in Hf, Ho.
  induction vs as [|v vs IH]; [done|].
  cbn [for_each]. unfold bind at 1. unfold convert at 1. rewrite Hf, Ho.
  unfold ret at 1. unfold bind at 1. by rewrite IH.
Qed.

(** With a format that is neither [fhir] nor [omop], every element of
    [d_list] is the empty dictionary: for at least one record the JSON
    artefact raises on [d['name']] and writes nothing. *)
Theorem run_json_unknown_format_raises
    (E : env) (format field_delimiter code_delimiter : string) (json_indent : Z)
    (value_set : pyval) (rest : list pyval) (w : world) :
  format ≠ "fhir" → format ≠ "omop" →
  run_emit E "json" format field_delimiter code_delimiter json_indent
           (PList (value_set :: rest)) w = (None, w).
Proof.
  intros Hf Ho. rewrite run_emit_json.
  rewrite (bind_run _ _ w w (value_set :: rest)) by reflexivity.
  rewrite (bind_run _ _ w w _ (for_each_convert_other E format _ w Hf Ho)).
  apply bind_raise. simpl. apply bind_raise. unfold save.
  by apply bind_raise.
Qed.

Lemma run_json_unknown_format_raises_witness :
  run_emit Examples.env "json" "vsac" "," "|" 4
           (PList [to_py Examples.asthma_sct]) Examples.cold
  = (None, Examples.cold).
Proof.
  apply (run_json_unknown_format_raises Examples.env "vsac" "," "|" 4);
    discriminate.
Defined.

(** ** [run]: the fetch *)

(** A fetch that raises has written no file: there is no half-written
    cache.  Only the log of calls has grown. *)
Theorem fetch_failure_writes_nothing (E : env) (w : world) :
  fst (fetch E w) = None → only_logged w (snd (fetch E w)).
Proof.
  unfold fetch, write_file, emit, bind, modify, lift, ret, get, raise,
    only_logged. simpl.
  destruct (get_sheets_data E) as [df|]; [|done]. simpl.
  destruct (getitem df "OID" ≫= iterate) as [column|]; [|done]. simpl.
  destruct (get_ticket_granting_ticket E) as [tgt|]; [|done]. simpl.
  destruct (get_value_sets E _ tgt) as [value_sets_dict|]; [|done]. simpl.
  destruct (getitem value_sets_dict _) as [response|]; [|done]. simpl.
  destruct (getitem response _) as [value_sets|]; [|done]. simpl.
  destruct (can_open _ _); simpl; [discriminate | done].
Qed.

Lemma fetch_failure_writes_nothing_witness :
  only_logged Examples.cold (snd (fetch Examples.env_no_grant Examples.cold)).
Proof.
  apply (fetch_failure_writes_nothing Examples.env_no_grant Examples.cold).
  reflexivity.
Defined.

(** Without a grant the value sets are not asked for: the fetch raises
    after the sheet has been read (and, if the sheet gave the identifiers,
    the grant requested), and no call to [get_value_sets] is made. *)
Theorem fetch_without_grant (E : env) (w : world) :
  get_ticket_granting_ticket E = None →
  fst (fetch E w) = None ∧
  (log (snd (fetch E w)) = log w ++ [ReadSheet] ∨
   log (snd (fetch E w)) = log w ++ [ReadSheet; RequestGrant]).
Proof.
  intros Hgrant.
  unfold fetch, write_file, emit, bind, modify, lift, ret. simpl.
  destruct (get_sheets_data E) as [df|]; [|by split; [|left]]. simpl.
  destruct (getitem df "OID" ≫= iterate) as [column|]; [|by split; [|left]].
  simpl. rewrite Hgrant. simpl. split; [done|]. right.
  by rewrite <- app_assoc.
Qed.

Lemma fetch_without_grant_witness :
  fst (fetch Examples.env_no_grant Examples.cold) = None ∧
  (log (snd (fetch Examples.env_no_grant Examples.cold))
     = log Examples.cold ++ [ReadSheet] ∨
   log (snd (fetch Examples.env_no_grant Examples.cold))
     = log Examples.cold ++ [ReadSheet; RequestGrant]).
Proof.
  apply (fetch_without_grant Examples.env_no_grant Examples.cold). reflexivity.
Defined.

(** ** The ticket client: more *)

(** Why [get_ticket_granting_ticket] raises: the request fails, the body
    has no form with an action, the action does not parse as a URL, or the
    URL has no path.  Any path, the empty one included, gives a ticket. *)
Theorem get_ticket_granting_ticket_raises_iff
    (post : request → option response) (API_KEY : string)
    (form_action : string → option string)
    (parse_url_path : string → option (option string)) :
  VsacApi.get_ticket_granting_ticket post API_KEY form_action parse_url_path = None ↔
  post (grant_request API_KEY) = None ∨
  (∃ r, post (grant_request API_KEY) = Some r ∧ form_action (text r) = None) ∨
  (∃ r tgt_url, post (grant_request API_KEY) = Some r ∧
                form_action (text r) = Some tgt_url ∧
                (parse_url_path tgt_url = None ∨
                 parse_url_path tgt_url = Some None)).
Proof.
  unfold VsacApi.get_ticket_granting_ticket.
  destruct (post (grant_request API_KEY)) as [r|]; simpl; [|by split; [left|]].
  destruct (form_action (text r)) as [tgt_url|] eqn:Hform; simpl.
  2: { split; [intros _; right; left; by exists r|done]. }
  destruct (parse_url_path tgt_url) as [[p|]|] eqn:Hpath; simpl.
  - split.
    + intros Hlast. apply last_None in Hlast.
      by destruct (split_go_not_nil "/" 0 p).
    + intros [?|[(r' & [= <-] & ?)|(r' & u & [= <-] & Hu & Hp)]];
        [done | congruence |].
      rewrite Hform in Hu. injection Hu as <-. rewrite Hpath in Hp.
      by destruct Hp.
  - split; [|done]. intros _. right. right. exists r, tgt_url. auto.
  - split; [|done]. intros _. right. right. exists r, tgt_url. auto.
Qed.

Lemma split_slash_trailing (p : string) :
  ∃ init, split_go "/" 0 (p +:+ "/") = init ++ [EmptyString].
Proof.
  induction p as [|c p (init & IH)]; [by exists [EmptyString]|].
  change (String c p +:+ "/") with (String c (p +:+ "/")).
  rewrite split_slash_cons, IH.
  destruct (Ascii.eqb c "/"); [by exists (EmptyString :: init)|].
  destruct init as [|x init].
  - exfalso. destruct (split_slash_join (p +:+ "/")) as [_ Hjoin].
    rewrite IH in Hjoin. simpl in Hjoin.
    by apply (append_not_empty p "/").
  - by exists (String c x :: init).
Qed.

(** An action URL whose path ends with a slash gives the empty ticket, and
    no error. *)
Theorem get_ticket_granting_ticket_trailing_slash
    (post : request → option response) (API_KEY : string)
    (form_action : string → option string)
    (parse_url_path : string → option (option string))
    (r : response) (tgt_url p : string) :
  post (grant_request API_KEY) = Some r →
  form_action (text r) = Some tgt_url →
  parse_url_path tgt_url = Some (Some (p +:+ "/")) →
  VsacApi.get_ticket_granting_ticket post API_KEY form_action parse_url_path
    = Some EmptyString.
Proof.
  intros Hpost Hform Hpath. unfold VsacApi.get_ticket_granting_ticket.
  rewrite Hpost. simpl. rewrite Hform. simpl. rewrite Hpath. simpl.
  destruct (split_slash_trailing p) as [init ->]. apply last_snoc.
Qed.

Lemma get_ticket_granting_ticket_trailing_slash_witness :
  VsacApi.get_ticket_granting_ticket
    (always (Response 201 "<form action='https://utslogin.nlm.nih.gov/cas/v1/api-key/'>"))
    "key"
    (λ _, Some "https://utslogin.nlm.nih.gov/cas/v1/api-key/")
    (λ _, Some (Some ("/cas/v1/api-key" +:+ "/")))
  = Some EmptyString.
Proof.
  apply (get_ticket_granting_ticket_trailing_slash _ "key" _ _
           (Response 201 "<form action='https://utslogin.nlm.nih.gov/cas/v1/api-key/'>")
           "https://utslogin.nlm.nih.gov/cas/v1/api-key/" "/cas/v1/api-key");
    reflexivity.
Defined.

(** ** [run]: the JSON artefact in the FHIR format *)

Lemma dict_has_set_mono {V} (d : dict V) (k p : string) (v : V) :
  dict_has d p = true → dict_has (dict_set d k v) p = true.
Proof.
  rewrite !dict_has_keys, dict_set_keys.
  destruct (dict_has d k); [done|]. intros H. apply elem_of_app. by left.
Qed.

Lemma convert_fhir_Some (E : env) (v : pyval) (w w1 : world) (a : artifact) :
  convert E "fhir" v w = (Some a, w1) →
  log w1 = log w ∧ files w1 = files w ∧
  ∃ name, first_of v "valueSet.name" = Some name ∧
          artifact_name a = match name with PStr s => Some s | _ => None end.
Proof.
  unfold convert. simpl. intros H.
  apply bind_Some in H as (d & s1 & Hrun & Hret).
  injection Hret as <- <-.
  unfold on_template in Hrun.
  destruct (vsac_to_fhir (Run.FHIR_JSON_TEMPLATE E) v (template w))
    as [r h] eqn:Hconv.
  injection Hrun as -> <-. split; [done|]. split; [done|].
  apply vsac_to_fhir_effect in Hconv
    as (id & id0 & name & status & description & system & version & text &
        compose & include & include0 & div_fmt & div & url_fmt & url &
        (_ & _ & Hname & _) & (_ & _ & ->) & _).
  exists name. split; [done|]. unfold artifact_name.
  by rewrite 3!dict_get_set_ne, dict_get_set_eq by done.
Qed.

Lemma for_each_convert_fhir (E : env) (records : list pyval) (w w1 : world)
    (ds : list artifact) :
  for_each records (convert E "fhir") w = (Some ds, w1) →
  log w1 = log w ∧ files w1 = files w ∧
  Forall2 (λ r a, ∃ name, first_of r "valueSet.name" = Some name ∧
                          artifact_name a =
                            match name with PStr s => Some s | _ => None end)
          records ds.
Proof.
  revert w ds. induction records as [|r records IH]; intros w ds H.
  - injection H as <- <-. by repeat split.
  - cbn [for_each] in H.
    apply bind_Some in H as (a & s1 & Hconv & H).
    apply bind_Some in H as (ds' & s2 & Hrest & H).
    injection H as <- <-.
    apply convert_fhir_Some in Hconv as (Hlog1 & Hfiles1 & Hname).
    apply IH in Hrest as (Hlog2 & Hfiles2 & Hall).
    split; [congruence|]. split; [congruence|]. by constructor.
Qed.

Lemma save_Some (E : env) (json_indent : Z) (a : artifact) (w w2 : world)
    (u : unit) :
  save E json_indent a w = (Some u, w2) →
  ∃ s, artifact_name a = Some s ∧
       log w2 = log w ++ [WriteFile (s +:+ ".json")] ∧
       dict_has (files w2) (s +:+ ".json") = true ∧
       ∀ p, dict_has (files w) p = true → dict_has (files w2) p = true.
Proof.
  unfold save. intros H.
  apply bind_Some in H as (s & s1 & Hname & H).
  apply lift_Some in Hname as [Hname ->].
  apply bind_Some in H as (tree & s2 & Htree & H).
  assert (s2 = w) as ->.
  { destruct a as [d|x]; simpl in Htree.
    - unfold bind, get, lift in Htree. by injection Htree as _ <-.
    - by injection Htree as _ <-. }
  exists s. split; [done|].
  apply write_file_Some in H as [_ ->]. simpl.
  split; [done|]. split; [apply dict_has_set|].
  intros p. apply dict_has_set_mono.
Qed.

Lemma for_each_save (E : env) (json_indent : Z) (ds : list artifact)
    (w w2 : world) (us : list unit) :
  for_each ds (save E json_indent) w = (Some us, w2) →
  ∃ names,
    Forall2 (λ a s, artifact_name a = Some s) ds names ∧
    log w2 = log w ++ map (λ s, WriteFile (s +:+ ".json")) names ∧
    Forall (λ s, dict_has (files w2) (s +:+ ".json") = true) names ∧
    ∀ p, dict_has (files w) p = true → dict_has (files w2) p = true.
Proof.
  revert w us. induction ds as [|a ds IH]; intros w us H.
  - injection H as <- <-. exists []. simpl. rewrite app_nil_r.
    by repeat split.
  - cbn [for_each] in H.
    apply bind_Some in H as (u & s1 & Hsave & H).
    apply bind_Some in H as (us' & s2 & Hrest & H).
    injection H as <- <-.
    apply save_Some in Hsave as (s & Hname & Hlog1 & Hfile1 & Hmono1).
    apply IH in Hrest as (names & Hnames & Hlog2 & Hfiles2 & Hmono2).
    exists (s :: names). split; [by constructor|]. split.
    { rewrite Hlog2, Hlog1. simpl. by rewrite <- app_assoc. }
    split; [|by auto]. constructor; [by apply Hmono2 | done].
Qed.

(** When the JSON artefact in the FHIR format completes, it has written one
    file per record, in the order of the records, each named after the name
    of its record with [.json] added: the name is a string, and the file is
    there at the end.  Two records of the same name are written to the same
    file, one after the other. *)
Theorem run_json_fhir_file_per_record
    (E : env) (field_delimiter code_delimiter : string) (json_indent : Z)
    (records : list pyval) (w w' : world) (u : unit) :
  run_emit E "json" "fhir" field_delimiter code_delimiter json_indent
           (PList records) w = (Some u, w') →
  ∃ names,
    Forall2 (λ r s, first_of r "valueSet.name" = Some (PStr s)) records names ∧
    log w' = log w ++ map (λ s, WriteFile (s +:+ ".json")) names ∧
    Forall (λ s, dict_has (files w') (s +:+ ".json") = true) names.
Proof.
  rewrite run_emit_json. intros H.
  rewrite (bind_run _ _ w w records) in H by reflexivity.
  apply bind_Some in H as (ds & s1 & Hconv & H).
  apply bind_Some in H as (us & s2 & Hsave & H).
  injection H as _ <-.
  apply for_each_convert_fhir in Hconv as (Hlog1 & _ & Hds).
  apply for_each_save in Hsave as (names & Hnames & Hlog2 & Hfiles & _).
  exists names. split; [|split; [congruence | done]].
  clear Hlog2 Hfiles. revert names Hnames.
  induction Hds as [|r a records ds (name & Hfirst & Hart) Hds IH];
    intros names Hnames.
  - inversion Hnames. constructor.
  - inversion Hnames as [|a' s ds' names' Hs Hrest]; subst.
    constructor; [|by apply IH].
    rewrite Hart in Hs. destruct name; try discriminate.
    by injection Hs as ->.
Qed.

Lemma run_json_fhir_file_per_record_witness :
  let w' := snd (run_emit Examples.env "json" "fhir" "," "|" 4
                   (PList [Examples.record_a; Examples.record_b])
                   Examples.cold) in
  ∃ names,
    Forall2 (λ r s, first_of r "valueSet.name" = Some (PStr s))
            [Examples.record_a; Examples.record_b] names ∧
    log w' = log Examples.cold ++ map (λ s, WriteFile (s +:+ ".json")) names ∧
    Forall (λ s, dict_has (files w') (s +:+ ".json") = true) names.
Proof.
  intros w'.
  apply (run_json_fhir_file_per_record Examples.env "," "|" 4
           [Examples.record_a; Examples.record_b] Examples.cold w' tt).
  vm_compute. reflexivity.
Defined.
